(** * flightlogger: the storage layer (storage/data-logic.go)

    A shallow embedding of the location, country-part and user queries of
    [OrmDatabase], over an executable model of the relational store the
    object-relational layer talks to.  Every function of the Go file keeps
    its name; a method on [*OrmDatabase] becomes a computation in the
    state monad [ORM], whose state is the store behind [d.db]. *)

From Stdlib Require Import List String Ascii Bool Arith NArith ZArith Lia PrimFloat.
Import ListNotations.
Local Open Scope string_scope.
Local Open Scope N_scope.
#[local] Set Warnings "-inexact-float".

(** ** Errors

    Go's [error] values.  [nil] is [None]; [errors.Wrap] keeps the cause
    under a message and maps [nil] to [nil]. *)

Inductive error : Type :=
| ErrRecordNotFound                       (* gorm.ErrRecordNotFound *)
| ErrDriver                               (* the store rejected the statement *)
| ErrDuplicateEntry                       (* primary key already in use *)
| WithMessage (msg : string) (cause : error).

Module errors.

Definition Wrap (err : option error) (message : string) : option error :=
  match err with
  | None => None
  | Some e => Some (WithMessage message e)
  end.

Fixpoint Cause (e : error) : error :=
  match e with
  | WithMessage _ c => Cause c
  | _ => e
  end.

End errors.

(** The two error kinds of the specification, told apart by the root cause. *)
Definition NotFoundError (e : error) : Prop :=
  errors.Cause e = ErrRecordNotFound.

Definition PersistenceError (e : error) : Prop :=
  exists msg cause, e = WithMessage msg cause /\ errors.Cause cause <> ErrRecordNotFound.

(** ** Strings

    Go strings are byte strings.  [strings.ToLower] is taken on ASCII
    text: the letters A-Z go to a-z, every other byte is kept. *)

Definition lower_ascii (c : ascii) : ascii :=
  let n := N_of_ascii c in
  if (65 <=? n) && (n <=? 90) then ascii_of_N (n + 32) else c.

Fixpoint ToLower (s : string) : string :=
  match s with
  | EmptyString => EmptyString
  | String c s' => String (lower_ascii c) (ToLower s')
  end.

(** ** Records

    The declarations of [DbCoordinates], [DbCountryPart], [DbLocation],
    [DbUser], [DbCredentials] and of the [common] package are not part of
    data-logic.go.  The fields below are those the Go file reads and
    writes, completed by the data model of the specification.  Each
    record lives in a module of its own so that the fields keep their Go
    names. *)

Module DbCoordinates.

(** Modelled from the spec: the declaration of [DbCoordinates] is missing;
    "Coordinates: {id, longitude, latitude}". *)
Record t : Type := mk {
  ID : N;
  Longitude : float;
  Lattitude : float
}.

Definition zero : t := mk 0 0%float 0%float.

Definition withID (id : N) (c : t) : t := mk id (Longitude c) (Lattitude c).
Definition withLongitude (x : float) (c : t) : t := mk (ID c) x (Lattitude c).
Definition withLattitude (x : float) (c : t) : t := mk (ID c) (Longitude c) x.

End DbCoordinates.

Module DbCountryPart.

(** Modelled from the spec: the declaration of [DbCountryPart] is missing;
    "CountryPart: {id, areaName, postalCode, countryPart}". *)
Record t : Type := mk {
  ID : N;
  AreaName : string;
  PostalCode : string;
  CountryPart : string
}.

Definition zero : t := mk 0 "" "" "".

Definition withID (id : N) (p : t) : t :=
  mk id (AreaName p) (PostalCode p) (CountryPart p).

(** Modelled from the spec: [isEmpty] is declared next to the record, not
    in data-logic.go.  "Empty CountryPart (all fields blank) is a sentinel
    meaning no country-part association". *)
Definition isEmpty (p : t) : bool :=
  Nat.eqb (String.length (AreaName p)) 0
  && Nat.eqb (String.length (PostalCode p)) 0
  && Nat.eqb (String.length (CountryPart p)) 0.

End DbCountryPart.

Module DbLocation.

(** Modelled from the spec: the declaration of [DbLocation] is missing;
    "Location: {id, name, coordinatesRef, countryPartRef}", soft-deleted
    by a deletion marker.  [Coordinates] and [CountryPart] are the
    embedded structs the Go file reads and writes. *)
Record t : Type := mk {
  ID : N;
  DeletedAt : option N;
  Name : string;
  Coordinates : DbCoordinates.t;
  CoordinatesReferer : N;
  CountryPart : DbCountryPart.t;
  CountrypartReferer : N
}.

Definition zero : t := mk 0 None "" DbCoordinates.zero 0 DbCountryPart.zero 0.

Definition withID (id : N) (l : t) : t :=
  mk id (DeletedAt l) (Name l) (Coordinates l) (CoordinatesReferer l)
     (CountryPart l) (CountrypartReferer l).
Definition withDeletedAt (at_ : option N) (l : t) : t :=
  mk (ID l) at_ (Name l) (Coordinates l) (CoordinatesReferer l)
     (CountryPart l) (CountrypartReferer l).
Definition withCoordinates (c : DbCoordinates.t) (l : t) : t :=
  mk (ID l) (DeletedAt l) (Name l) c (CoordinatesReferer l)
     (CountryPart l) (CountrypartReferer l).
Definition withCoordinatesReferer (r : N) (l : t) : t :=
  mk (ID l) (DeletedAt l) (Name l) (Coordinates l) r
     (CountryPart l) (CountrypartReferer l).
Definition withCountrypartReferer (r : N) (l : t) : t :=
  mk (ID l) (DeletedAt l) (Name l) (Coordinates l) (CoordinatesReferer l)
     (CountryPart l) r.

(** The columns of the row: the embedded structs are not columns of the
    locations table, so a row read back carries them zero-valued. *)
Definition columns (l : t) : t :=
  mk (ID l) (DeletedAt l) (Name l) DbCoordinates.zero (CoordinatesReferer l)
     DbCountryPart.zero (CountrypartReferer l).

End DbLocation.

Module DbUser.

(** Modelled from the spec: the declaration of [DbUser] is missing and the
    specification names users as stored entities without their columns;
    the key, which the Go file uses, and one field for the rest. *)
Record t : Type := mk {
  ID : N;
  Profile : string
}.

Definition withID (id : N) (u : t) : t := mk id (Profile u).

End DbUser.

Module DbCredentials.

(** Modelled from the spec: the declaration of [DbCredentials] is missing;
    the fields are those the Go file uses. *)
Record t : Type := mk {
  ID : N;
  UserID : N;
  PasswordHash : option (list N);
  PasswordSalt : option (list N)
}.

Definition withID (id : N) (c : t) : t :=
  mk id (UserID c) (PasswordHash c) (PasswordSalt c).
Definition withUserID (uid : N) (c : t) : t :=
  mk (ID c) uid (PasswordHash c) (PasswordSalt c).

End DbCredentials.

Module common.

Module Location.

(** Modelled from the spec: the declaration of [common.Location] is
    missing; a Location value "with embedded coordinate and country-part
    fields", returned "with its generated identifier and resolved
    sub-entity identifiers populated". *)
Record t : Type := mk {
  ID : N;
  Name : string;
  Longitude : float;
  Lattitude : float;
  AreaName : string;
  PostalCode : string;
  CountryPart : string;
  CoordinatesID : N;
  CountryPartID : N
}.

End Location.

Module User.

(** Modelled from the spec: the declaration of [common.User] is missing;
    the Go file reads [PasswordSalt] and [PasswordHash] (byte slices that
    may be nil), the other fields of a user are carried as one. *)
Record t : Type := mk {
  ID : N;
  Profile : string;
  PasswordHash : option (list N);
  PasswordSalt : option (list N)
}.

End User.

End common.

(** Modelled from the spec: [mapLocation] is declared outside
    data-logic.go.  The input of CreateLocation has "embedded coordinate
    and country-part fields" and "no pre-existing identifier";
    [UpdateLocation] builds its country part from the same three fields. *)
Definition mapLocation (location : common.Location.t) : DbLocation.t :=
  DbLocation.mk 0 None (common.Location.Name location)
    (DbCoordinates.mk 0 (common.Location.Longitude location)
                        (common.Location.Lattitude location))
    0
    (DbCountryPart.mk 0 (common.Location.AreaName location)
                        (common.Location.PostalCode location)
                        (common.Location.CountryPart location))
    0.

(** Modelled from the spec: [demapLocation] is declared outside
    data-logic.go.  The result is the Location "with its generated
    identifier and resolved sub-entity identifiers populated". *)
Definition demapLocation (l : DbLocation.t) : common.Location.t :=
  common.Location.mk (DbLocation.ID l) (DbLocation.Name l)
    (DbCoordinates.Longitude (DbLocation.Coordinates l))
    (DbCoordinates.Lattitude (DbLocation.Coordinates l))
    (DbCountryPart.AreaName (DbLocation.CountryPart l))
    (DbCountryPart.PostalCode (DbLocation.CountryPart l))
    (DbCountryPart.CountryPart (DbLocation.CountryPart l))
    (DbLocation.CoordinatesReferer l)
    (DbLocation.CountrypartReferer l).

(** Modelled from the spec: [demapLocations] is declared outside
    data-logic.go; [LocationSearchByName] returns a "sequence of
    Location". *)
Definition demapLocations (ls : list DbLocation.t) : list common.Location.t :=
  map demapLocation ls.

(** ** The store behind [d.db]

    Five tables, in insertion order.  Two more components make the
    behaviour of the store observable: [script] says, for each statement
    still to come, whether the store rejects it (an exhausted script
    rejects nothing), and [journal] lists the statements issued so far,
    oldest first.  [now] is the time stamp written by a soft delete. *)

Inductive table : Type :=
| db_countryparts | db_coordinates | db_locations | db_users | db_credentials.

Inductive statement : Type :=
| INSERT (t : table)
| SELECT (t : table)
| UPDATE (t : table).

Record DB : Type := mkDB {
  countryparts : list DbCountryPart.t;
  coordinates : list DbCoordinates.t;
  locations : list DbLocation.t;
  users : list DbUser.t;
  credentials : list DbCredentials.t;
  script : list bool;
  journal : list statement;
  now : N
}.

Definition emptyDB : DB := mkDB [] [] [] [] [] [] [] 0.

Definition ORM (A : Type) : Type := DB -> A * DB.

Definition ret {A : Type} (a : A) : ORM A := fun d => (a, d).

Definition bind {A B : Type} (m : ORM A) (k : A -> ORM B) : ORM B :=
  fun d => let (a, d') := m d in k a d'.

Notation "x <- m ;; k" := (bind m (fun x => k))
  (at level 61, m at next level, right associativity).
Notation "' pat <- m ;; k" := (bind m (fun x => match x with pat => k end))
  (at level 61, pat pattern, m at next level, right associativity).

(** Sending one statement to the store: the journal grows by it, the
    script loses its head, and the head tells whether the store rejects. *)
Definition issue (s : statement) : ORM bool := fun d =>
  (hd false (script d),
   mkDB (countryparts d) (coordinates d) (locations d) (users d)
        (credentials d) (tl (script d)) (journal d ++ [s]) (now d)).

(** What the object-relational layer knows of a record type: its table,
    its primary key, the row it writes, and whether a row is live (not
    soft-deleted). *)
Class Model (R : Type) : Type := {
  table_of : table;
  pk : R -> N;
  with_pk : N -> R -> R;
  columns : R -> R;
  live : R -> bool;
  rows : DB -> list R;
  put_rows : list R -> DB -> DB
}.

#[global] Instance Model_DbCountryPart : Model DbCountryPart.t := {|
  table_of := db_countryparts;
  pk := DbCountryPart.ID;
  with_pk := DbCountryPart.withID;
  columns := fun p => p;
  live := fun _ => true;
  rows := countryparts;
  put_rows := fun l d =>
    mkDB l (coordinates d) (locations d) (users d) (credentials d)
         (script d) (journal d) (now d)
|}.

#[global] Instance Model_DbCoordinates : Model DbCoordinates.t := {|
  table_of := db_coordinates;
  pk := DbCoordinates.ID;
  with_pk := DbCoordinates.withID;
  columns := fun c => c;
  live := fun _ => true;
  rows := coordinates;
  put_rows := fun l d =>
    mkDB (countryparts d) l (locations d) (users d) (credentials d)
         (script d) (journal d) (now d)
|}.

#[global] Instance Model_DbLocation : Model DbLocation.t := {|
  table_of := db_locations;
  pk := DbLocation.ID;
  with_pk := DbLocation.withID;
  columns := DbLocation.columns;
  live := fun l => match DbLocation.DeletedAt l with None => true | Some _ => false end;
  rows := locations;
  put_rows := fun l d =>
    mkDB (countryparts d) (coordinates d) l (users d) (credentials d)
         (script d) (journal d) (now d)
|}.

#[global] Instance Model_DbUser : Model DbUser.t := {|
  table_of := db_users;
  pk := DbUser.ID;
  with_pk := DbUser.withID;
  columns := fun u => u;
  live := fun _ => true;
  rows := users;
  put_rows := fun l d =>
    mkDB (countryparts d) (coordinates d) (locations d) l (credentials d)
         (script d) (journal d) (now d)
|}.

#[global] Instance Model_DbCredentials : Model DbCredentials.t := {|
  table_of := db_credentials;
  pk := DbCredentials.ID;
  with_pk := DbCredentials.withID;
  columns := fun c => c;
  live := fun _ => true;
  rows := credentials;
  put_rows := fun l d =>
    mkDB (countryparts d) (coordinates d) (locations d) (users d) l
         (script d) (journal d) (now d)
|}.

(** The next value of an auto-increment key: above every key in use, and
    never 0. *)
Definition next_key (keys : list N) : N :=
  N.succ (fold_right N.max 0 keys).

(** [ORDER BY id LIMIT 1]: the row with the least key, the earliest one
    among equals. *)
Fixpoint first_by_pk {R : Type} `{Model R} (l : list R) : option R :=
  match l with
  | [] => None
  | r :: l' =>
      match first_by_pk l' with
      | None => Some r
      | Some r' => if pk r <=? pk r' then Some r else Some r'
      end
  end.

(** ** SQL comparisons

    The store compares text without regard to letter case (the default
    collation of the MySQL dialect the file imports).  In a [LIKE]
    pattern [%] stands for any run of characters, [_] for any one
    character, and a backslash takes the next character literally. *)

Definition sql_eq (a b : string) : bool := String.eqb (ToLower a) (ToLower b).

Definition same_char (a b : ascii) : bool :=
  Ascii.eqb (lower_ascii a) (lower_ascii b).

Fixpoint like (pattern : string) : string -> bool :=
  match pattern with
  | EmptyString => fun s => match s with EmptyString => true | _ => false end
  | String c p =>
      if Ascii.eqb c "%" then
        fix star (s : string) : bool :=
          like p s || match s with EmptyString => false | String _ s' => star s' end
      else if Ascii.eqb c "_" then
        fun s => match s with EmptyString => false | String _ s' => like p s' end
      else if Ascii.eqb c "\" then
        match p with
        | EmptyString =>
            fun s => match s with
                     | String x EmptyString => same_char c x
                     | _ => false
                     end
        | String c' p' =>
            fun s => match s with
                     | EmptyString => false
                     | String x s' => same_char c' x && like p' s'
                     end
        end
      else
        fun s => match s with
                 | EmptyString => false
                 | String x s' => same_char c x && like p s'
                 end
  end.

(** ** The object-relational layer

    The calls of the Go file on [d.db], a library outside the repository,
    as the Go file relies on them.  Each sends statements through
    [issue]; a rejected statement changes no table and yields
    [ErrDriver].  A query writes into its destination only when it finds
    a row.  Embedded structs are not followed: a statement touches the
    table of its value and no other. *)

Module gorm.

(** [db.Create(&value)]: a zero key is replaced by the next
    auto-increment value, a given key must not be in use. *)
Definition Create {R : Type} `{Model R} (value : R) : ORM (R * option error) :=
  rejected <- issue (INSERT table_of) ;;
  if rejected then ret (value, Some ErrDriver)
  else fun d =>
    if pk value =? 0 then
      let created := with_pk (next_key (map pk (rows d))) value in
      ((created, None), put_rows (rows d ++ [columns created]) d)
    else if existsb (N.eqb (pk value)) (map pk (rows d)) then
      ((value, Some ErrDuplicateEntry), d)
    else
      ((value, None), put_rows (rows d ++ [columns value]) d).

(** [db.Where(cond).First(&dest)]: the first live row, in key order, that
    satisfies [cond]; [ErrRecordNotFound] when there is none. *)
Definition First {R : Type} `{Model R} (cond : R -> bool) (dest : R)
  : ORM (R * option error) :=
  rejected <- issue (SELECT table_of) ;;
  if rejected then ret (dest, Some ErrDriver)
  else fun d =>
    match first_by_pk (filter (fun r => live r && cond r) (rows d)) with
    | Some r => ((r, None), d)
    | None => ((dest, Some ErrRecordNotFound), d)
    end.

(** [db.First(&dest, ID)]. *)
Definition FirstByID {R : Type} `{Model R} (dest : R) (id : N)
  : ORM (R * option error) :=
  First (fun r => pk r =? id) dest.

(** [db.Where(cond).Find(&dest)]: every live row that satisfies [cond];
    finding none is not an error. *)
Definition Find {R : Type} `{Model R} (cond : R -> bool) (dest : list R)
  : ORM (list R * option error) :=
  rejected <- issue (SELECT table_of) ;;
  if rejected then ret (dest, Some ErrDriver)
  else fun d => ((filter (fun r => live r && cond r) (rows d), None), d).

(** [db.Save(&value)]: with a zero key an insert; otherwise an update of
    the live rows under that key and, when there is none, a look-up
    followed by an insert. *)
Definition Save {R : Type} `{Model R} (value : R) : ORM (R * option error) :=
  if pk value =? 0 then Create value
  else
    rejected <- issue (UPDATE table_of) ;;
    if rejected then ret (value, Some ErrDriver)
    else fun d =>
      let hit := fun r => live r && (pk r =? pk value) in
      if existsb hit (rows d) then
        ((value, None),
         put_rows (map (fun r => if hit r then columns value else r) (rows d)) d)
      else
        (rejected <- issue (SELECT table_of) ;;
         if rejected then ret (value, Some ErrDriver) else Create value) d.

(** [db.Delete(&value)] on a location: the live rows under the key of
    [value] receive the deletion marker and stay in the table.  With a
    zero key the statement carries no key condition. *)
Definition Delete (value : DbLocation.t) : ORM (option error) :=
  rejected <- issue (UPDATE db_locations) ;;
  if rejected then ret (Some ErrDriver)
  else fun d =>
    let hit := fun r : DbLocation.t =>
      live r && ((DbLocation.ID value =? 0) || (DbLocation.ID r =? DbLocation.ID value)) in
    (None,
     put_rows (map (fun r => if hit r then DbLocation.withDeletedAt (Some (now d)) r else r)
                   (locations d)) d).

(** [db.Model(&location).Related(&dest, "Coordinates")]: the coordinates
    row whose key is the location's [CoordinatesReferer]. *)
Definition Related (location : DbLocation.t) (dest : DbCoordinates.t)
  : ORM (DbCoordinates.t * option error) :=
  First (fun c => DbCoordinates.ID c =? DbLocation.CoordinatesReferer location) dest.

End gorm.

(** ** storage/data-logic.go *)

Section UserQueries.

(** [mapUser] and [demapUser] are declared outside data-logic.go; the
    queries are parametric in them. *)
Variable mapUser : common.User.t -> DbUser.t * DbCredentials.t.
Variable demapUser : DbUser.t -> common.User.t.

(** CreateUser - try to create a new user *)
Definition CreateUser (user : common.User.t) : ORM (common.User.t * option error) :=
  let '(mappedUser, mappedCreds) := mapUser user in
  '(mappedUser, err) <- gorm.Create mappedUser ;;
  match err with
  | Some e => ret (user, Some e)
  | None =>
      let mappedCreds := DbCredentials.withUserID (DbUser.ID mappedUser) mappedCreds in
      '(mappedCreds, err) <- gorm.Create mappedCreds ;;
      match err with
      | Some _ => ret (demapUser mappedUser, None)
      | None => ret (demapUser mappedUser, None)
      end
  end.

End UserQueries.

(** The condition ["area_name = ? AND postal_code = ? AND country_part = ?"]
    with the three fields of [part] as its arguments. *)
Definition same_triple (part r : DbCountryPart.t) : bool :=
  sql_eq (DbCountryPart.AreaName r) (DbCountryPart.AreaName part)
  && sql_eq (DbCountryPart.PostalCode r) (DbCountryPart.PostalCode part)
  && sql_eq (DbCountryPart.CountryPart r) (DbCountryPart.CountryPart part).

(** The reason for this not being used *)
Definition getCountryPart (part : DbCountryPart.t) : ORM N :=
  '(dbPart, err) <- gorm.First (same_triple part) DbCountryPart.zero ;;
  match err with
  | Some _ => ret 0
  | None => ret (DbCountryPart.ID dbPart)
  end.

(** creates a countrypart if needed, or it will return an existing to
    prevent duplicates *)
Definition resolveCountryPart (part : DbCountryPart.t) : ORM N :=
  if negb (DbCountryPart.isEmpty part) then
    comboID <- getCountryPart part ;;
    if comboID =? 0 then
      '(part, err) <- gorm.Create part ;;
      match err with
      | Some _ => ret 0
      | None => ret (DbCountryPart.ID part)
      end
    else ret comboID
  else ret 0.

(** CreateLocation - creates a location. *)
Definition CreateLocation (location : common.Location.t)
  : ORM (common.Location.t * option error) :=
  let mappedLocation := mapLocation location in
  '(coordinates, err) <- gorm.Create (DbLocation.Coordinates mappedLocation) ;;
  let mappedLocation := DbLocation.withCoordinates coordinates mappedLocation in
  match err with
  | Some _ => ret (location, errors.Wrap err "Unable to store coordinates")
  | None =>
      partID <- resolveCountryPart (DbLocation.CountryPart mappedLocation) ;;
      let mappedLocation :=
        DbLocation.withCoordinatesReferer
          (DbCoordinates.ID (DbLocation.Coordinates mappedLocation)) mappedLocation in
      let mappedLocation := DbLocation.withCountrypartReferer partID mappedLocation in
      '(mappedLocation, err) <- gorm.Create mappedLocation ;;
      match err with
      | Some _ => ret (location, errors.Wrap err "Could not create the location")
      | None => ret (demapLocation mappedLocation, None)
      end
  end.

(** UpdateLocation updates the location and if needed its CountryPart and
    coordinates *)
Definition UpdateLocation (ID : N) (location : common.Location.t)
  : ORM (common.Location.t * option error) :=
  '(existingLocation, _) <- gorm.FirstByID DbLocation.zero ID ;;
  let newCountryPart :=
    DbCountryPart.mk 0 (common.Location.AreaName location)
                       (common.Location.PostalCode location)
                       (common.Location.CountryPart location) in
  partID <- resolveCountryPart newCountryPart ;;
  '(coordinates, err) <- gorm.Related existingLocation DbCoordinates.zero ;;
  match err with
  | Some _ => ret (location, err)
  | None =>
      let coordinates :=
        DbCoordinates.withLongitude
          (DbCoordinates.Longitude (DbLocation.Coordinates existingLocation)) coordinates in
      let coordinates :=
        DbCoordinates.withLattitude
          (DbCoordinates.Lattitude (DbLocation.Coordinates existingLocation)) coordinates in
      let existingLocation := DbLocation.withCountrypartReferer partID existingLocation in
      let result := demapLocation existingLocation in
      '(_, err) <- gorm.Save existingLocation ;;
      ret (result, errors.Wrap err "Unable to update a user")
  end.

(** DeleteLocation - softDeletes a location *)
Definition DeleteLocation (ID : N) : ORM (option error) :=
  '(loc, err0) <- gorm.FirstByID DbLocation.zero ID ;;
  let err := errors.Wrap err0 "Unable to get location" in
  let loc := DbLocation.withID ID loc in
  match err with
  | Some _ => ret (errors.Wrap err "Cannot delete a user we cannot find")
  | None => gorm.Delete loc
  end.

(** LocationSearchByName finds relevant locations based on user input *)
Definition LocationSearchByName (name : string)
  : ORM (list common.Location.t * option error) :=
  '(locations, err) <-
    gorm.Find (fun l : DbLocation.t => like (ToLower name ++ "%") (DbLocation.Name l)) [] ;;
  match err with
  | Some _ => ret ([], errors.Wrap err "Unable to find locations")
  | None => ret (demapLocations locations, None)
  end.

(** GetLocation - should get a location and its sub-entities *)
Definition GetLocation (ID : N) : ORM (common.Location.t * option error) :=
  '(loc, err0) <- gorm.FirstByID DbLocation.zero ID ;;
  let err := errors.Wrap err0 "Unable to get location" in
  match err with
  | Some _ => ret (demapLocation loc, err)
  | None => ret (demapLocation loc, None)
  end.

(** ** storage/data-logic.go: the remaining queries *)

(** Go's [int], 64 bits wide: the value of an arithmetic result after
    wrap-around. *)
Definition wrap_int (z : Z) : Z :=
  ((z + 2 ^ 63) mod 2 ^ 64 - 2 ^ 63)%Z.

Module gormPage.

(** [db.Limit(limit).Offset(offset).Find(&dest)] in the MySQL dialect:
    a negative limit gives neither clause, a negative offset no
    [OFFSET]. *)
Definition Find {R : Type} `{Model R} (limit offset : Z) (dest : list R)
  : ORM (list R * option error) :=
  rejected <- issue (SELECT table_of) ;;
  if rejected then ret (dest, Some ErrDriver)
  else fun d =>
    let found := filter live (rows d) in
    let page :=
      if (0 <=? limit)%Z then
        firstn (Z.to_nat limit)
               (if (0 <=? offset)%Z then skipn (Z.to_nat offset) found else found)
      else found in
    ((page, None), d).

End gormPage.

Section MoreUserQueries.

(** [mapUser], [demapUser] and [demapUsers] are declared outside
    data-logic.go; the queries are parametric in them. *)
Variable mapUser : common.User.t -> DbUser.t * DbCredentials.t.
Variable demapUser : DbUser.t -> common.User.t.
Variable demapUsers : list DbUser.t -> list common.User.t.

(** GetAllUsers - gets all users *)
Definition GetAllUsers (limit page : Z) : ORM (list common.User.t * option error) :=
  '(users, _) <- gormPage.Find limit (wrap_int (wrap_int (page - 1) * limit)) [] ;;
  ret (demapUsers users, None).

(** GetUser - gets a single user if it exists *)
Definition GetUser (ID : N) : ORM (common.User.t * option error) :=
  '(user, err0) <- gorm.FirstByID (DbUser.mk 0 "") ID ;;
  let err := errors.Wrap err0 "Unable to get user" in
  let user := DbUser.withID ID user in
  ret (demapUser user, err).

(** UpdateUser - update an existing user if it exists *)
Definition UpdateUser (ID : N) (user : common.User.t)
  : ORM (common.User.t * option error) :=
  let '(dbUser, _) := mapUser user in
  let dbUser := DbUser.withID ID dbUser in
  let finish : ORM (common.User.t * option error) :=
    let result := demapUser dbUser in
    '(_, err) <- gorm.Save dbUser ;;
    ret (result, errors.Wrap err "Unable to update a user") in
  match common.User.PasswordSalt user, common.User.PasswordHash user with
  | Some salt, Some hash =>
      '(creds, err) <-
        gorm.First (fun c => DbCredentials.UserID c =? ID) (DbCredentials.mk 0 0 None None) ;;
      match err with
      | Some _ => ret (user, errors.Wrap err "Unable to update password details")
      | None =>
          let creds :=
            DbCredentials.mk (DbCredentials.ID creds) (DbCredentials.UserID creds)
                             (Some hash) (DbCredentials.PasswordSalt creds) in
          let creds :=
            DbCredentials.mk (DbCredentials.ID creds) (DbCredentials.UserID creds)
                             (DbCredentials.PasswordHash creds) (Some salt) in
          '(_, err) <- gorm.Save creds ;;
          match err with
          | Some _ => ret (user, errors.Wrap err "Unable to update password details")
          | None => finish
          end
      end
  | _, _ => finish
  end.

End MoreUserQueries.

(** ** MigrateDatabase

    The schema statements of [MigrateDatabase] touch no row; they are
    followed on a state of their own, with a script and a journal as for
    the store. *)

Module Migration.

Inductive ddl : Type :=
| AutoMigrate (model : string)
| AddForeignKey (model field dest onDelete onUpdate : string).

Record Schema : Type := mkSchema {
  script : list bool;
  journal : list ddl
}.

(** One schema statement and its [.Error]. *)
Definition exec (s : ddl) (d : Schema) : option error * Schema :=
  (if hd false (script d) then Some ErrDriver else None,
   mkSchema (tl (script d)) (journal d ++ [s])).

(** MigrateDatabase - migrates the database *)
Definition MigrateDatabase (d : Schema) : option error * Schema :=
  let (err, d) := exec (AutoMigrate "DbCountryPart") d in
  let (err, d) := exec (AutoMigrate "DbFileReference") d in
  let (err, d) := exec (AutoMigrate "DbCoordinates") d in
  let (err, d) := exec (AutoMigrate "DbLocation") d in
  match err with
  | Some _ => (errors.Wrap err "Unable to migrate basic Location-coordinates", d)
  | None =>
  let (err, d) := exec (AutoMigrate "DbClub") d in
  let (err, d) := exec (AutoMigrate "DbWaypoint") d in
  let (err, d) := exec (AutoMigrate "DbStartSite") d in
  match err with
  | Some _ => (errors.Wrap err "Unable to migrate flight base-entities", d)
  | None =>
  let (err, d) := exec (AutoMigrate "DbWingScoreDetails") d in
  let (err, d) := exec (AutoMigrate "DbWing") d in
  match err with
  | Some _ => (errors.Wrap err "Unable to migrate wing-entities", d)
  | None =>
  let (err, d) := exec (AutoMigrate "DbFlightType") d in
  let (err, d) := exec (AutoMigrate "DbTakeoffType") d in
  let (err, d) := exec (AutoMigrate "DbIncident") d in
  let (err, d) := exec (AutoMigrate "DbFlight") d in
  match err with
  | Some _ => (errors.Wrap err "Unable to migrate flight-entities", d)
  | None =>
  let (err, d) := exec (AutoMigrate "DbCredentials") d in
  let (err, d) := exec (AutoMigrate "DbUserScope") d in
  let (err, d) := exec (AutoMigrate "DbUserGroup") d in
  let (err, d) := exec (AutoMigrate "DbUser") d in
  match err with
  | Some _ => (errors.Wrap err "Unable to migrate user-entities", d)
  | None =>
  let (err, d) :=
    exec (AddForeignKey "DbCredentials" "user_id" "db_users(id)" "CASCADE" "CASCADE") d in
  let (err, d) :=
    exec (AddForeignKey "DbLocation" "countrypart_referer" "db_countryparts(id)"
                        "SET NULL" "SET NULL") d in
  let (err, d) :=
    exec (AddForeignKey "DbLocation" "coordinates_referer" "db_coordinates(id)"
                        "SET NULL" "SET NULL") d in
  match err with
  | Some _ => (errors.Wrap err "Unable to establich foreign keys", d)
  | None => (errors.Wrap err "Unable to migrate the database", d)
  end end end end end end.

End Migration.

(** * Properties *)

(** ** Vocabulary *)

(** The store after one more statement has been sent. *)
Definition advance (s : statement) (d : DB) : DB := snd (issue s d).

(** Whether the store rejects the [n]-th statement to come (from 0). *)
Definition rejects (n : nat) (d : DB) : bool := nth n (script d) false.

(** None of the next [n] statements is rejected. *)
Definition calm (n : nat) (d : DB) : bool := forallb negb (firstn n (script d)).

(** Two stores hold the same rows in every table. *)
Definition same_tables (d d' : DB) : Prop :=
  countryparts d' = countryparts d /\ coordinates d' = coordinates d
  /\ locations d' = locations d /\ users d' = users d
  /\ credentials d' = credentials d.

(** The identity of a country part: its triple, as the store compares it. *)
Definition triple_key (p : DbCountryPart.t) : string * string * string :=
  (ToLower (DbCountryPart.AreaName p),
   ToLower (DbCountryPart.PostalCode p),
   ToLower (DbCountryPart.CountryPart p)).

(** Invariant 2 of the data model: no two CountryPart rows carry the same
    triple. *)
Definition no_duplicate_triples (d : DB) : Prop :=
  NoDup (map triple_key (countryparts d)).

(** Keys handed out by auto-increment are never 0. *)
Definition keys_nonzero (d : DB) : Prop :=
  Forall (fun p => DbCountryPart.ID p <> 0) (countryparts d).

(** The live location stored under [id], if any. *)
Definition find_live (id : N) (d : DB) : option DbLocation.t :=
  first_by_pk (filter (fun r => live r && (DbLocation.ID r =? id)) (locations d)).

(** The row [resolveCountryPart] inserts for a part without a key. *)
Definition new_part (part : DbCountryPart.t) (d : DB) : DbCountryPart.t :=
  DbCountryPart.withID (next_key (map DbCountryPart.ID (countryparts d))) part.

(** The outcome of the insert branch of [resolveCountryPart], entered
    after the look-up statement. *)
Definition insert_branch (part : DbCountryPart.t) (d : DB) : N * DB :=
  let d2 := advance (INSERT db_countryparts) (advance (SELECT db_countryparts) d) in
  if rejects 1 d then (0, d2)
  else (DbCountryPart.ID (new_part part d),
        put_rows (countryparts d ++ [new_part part d]) d2).

(** The statements [resolveCountryPart] may send. *)
Definition on_countryparts (s : statement) : Prop :=
  s = SELECT db_countryparts \/ s = INSERT db_countryparts.

(** From [d] to [d'] exactly the statements [sent] went to the store. *)
Definition sends (d d' : DB) (sent : list statement) : Prop :=
  journal d' = (journal d ++ sent)%list
  /\ script d' = skipn (List.length sent) (script d)
  /\ now d' = now d.

(** All tables but the country parts are the same in [d] and [d']. *)
Definition only_countryparts (d d' : DB) : Prop :=
  coordinates d' = coordinates d /\ locations d' = locations d
  /\ users d' = users d /\ credentials d' = credentials d.

(** A step that touches the country parts only and sends nothing but
    statements on that table. *)
Definition countrypart_step (d d' : DB) : Prop :=
  only_countryparts d d'
  /\ exists sent, sends d d' sent /\ Forall on_countryparts sent.

(** The Coordinates row step (a) of [CreateLocation] writes, and the store
    right after that step. *)
Definition stored_coordinates (location : common.Location.t) (d : DB) : DbCoordinates.t :=
  DbCoordinates.mk (next_key (map DbCoordinates.ID (coordinates d)))
                   (common.Location.Longitude location)
                   (common.Location.Lattitude location).

Definition after_coordinates (location : common.Location.t) (d : DB) : DB :=
  put_rows (coordinates d ++ [stored_coordinates location d])
           (advance (INSERT db_coordinates) d).

(** The country part [CreateLocation] hands to [resolveCountryPart]. *)
Definition part_of (location : common.Location.t) : DbCountryPart.t :=
  DbCountryPart.mk 0 (common.Location.AreaName location)
                     (common.Location.PostalCode location)
                     (common.Location.CountryPart location).

(** The row [UpdateLocation] saves over the live rows under [id]. *)
Definition updated_row (partID : N) (l : DbLocation.t) : DbLocation.t :=
  DbLocation.columns (DbLocation.withCountrypartReferer partID l).

(** The rows of the locations table after the soft delete of [id] at
    time [t]. *)
Definition soft_deleted (id t : N) (ls : list DbLocation.t) : list DbLocation.t :=
  map (fun r => if live r && ((id =? 0) || (DbLocation.ID r =? id))
                then DbLocation.withDeletedAt (Some t) r else r) ls.

(** The characters with a meaning of their own in a [LIKE] pattern. *)
Definition wildcard (c : ascii) : bool :=
  Ascii.eqb c "%" || Ascii.eqb c "_" || Ascii.eqb c "\".

Fixpoint plain (s : string) : bool :=
  match s with
  | EmptyString => true
  | String c s' => negb (wildcard c) && plain s'
  end.

(** The Locations the search is meant to return for [name]: the live
    rows whose name, letter case aside, starts with the lower-cased
    term. *)
Definition prefix_matches (name : string) (d : DB) : list DbLocation.t :=
  filter (fun l => live l && String.prefix (ToLower name) (ToLower (DbLocation.Name l)))
         (locations d).

(** ** Example data *)

(** A store holding the given country parts and nothing else; [sc] is
    its script. *)
Definition storeWith (parts : list DbCountryPart.t) (sc : list bool) : DB :=
  mkDB parts [] [] [] [] sc [] 0.

Definition bergenPart : DbCountryPart.t := DbCountryPart.mk 1 "Bergen" "5003" "West".

(** The Oslo triple, as a caller passes it and as a stored row. *)
Definition osloPart : DbCountryPart.t := DbCountryPart.mk 0 "Oslo" "0150" "East".
Definition osloStored : DbCountryPart.t := DbCountryPart.mk 1 "Oslo" "0150" "East".

(** A location, and an update input for it with other coordinates and
    another triple. *)
Definition osloVest : common.Location.t :=
  common.Location.mk 0 "Oslo Vest" 10%float 59.9%float "Oslo" "0150" "East" 0 0.

Definition osloVestMoved : common.Location.t :=
  common.Location.mk 0 "Oslo Vest" 20%float 60%float "Bergen" "5003" "West" 0 0.

(** The store after creating "Oslo Vest", "Oslofjorden" (same triple) and
    "Bergen" (no country part). *)
Definition threeLocations : DB :=
  snd (CreateLocation
         (common.Location.mk 0 "Bergen" 5.3%float 60.4%float "" "" "" 0 0)
         (snd (CreateLocation
                 (common.Location.mk 0 "Oslofjorden" 10.6%float 59.5%float
                                     "Oslo" "0150" "East" 0 0)
                 (snd (CreateLocation osloVest emptyDB))))).

(** One way to map users. *)
Definition mapUserPlain (user : common.User.t) : DbUser.t * DbCredentials.t :=
  (DbUser.mk 0 (common.User.Profile user),
   DbCredentials.mk 0 0 (common.User.PasswordHash user) (common.User.PasswordSalt user)).

Definition demapUserPlain (u : DbUser.t) : common.User.t :=
  common.User.mk (DbUser.ID u) (DbUser.Profile u) None None.

Definition ada : common.User.t :=
  common.User.mk 0 "ada" (Some [1; 2; 3]) (Some [4; 5; 6]).

(** ** Vocabulary for the remaining queries *)

(** Whether the [n]-th schema statement to come is rejected. *)
Definition ddl_rejects (n : nat) (d : Migration.Schema) : bool :=
  nth n (Migration.script d) false.

(** The schema statements of [MigrateDatabase], in the order of the Go
    file. *)
Definition migration_statements : list Migration.ddl :=
  [Migration.AutoMigrate "DbCountryPart"; Migration.AutoMigrate "DbFileReference";
   Migration.AutoMigrate "DbCoordinates"; Migration.AutoMigrate "DbLocation";
   Migration.AutoMigrate "DbClub"; Migration.AutoMigrate "DbWaypoint";
   Migration.AutoMigrate "DbStartSite";
   Migration.AutoMigrate "DbWingScoreDetails"; Migration.AutoMigrate "DbWing";
   Migration.AutoMigrate "DbFlightType"; Migration.AutoMigrate "DbTakeoffType";
   Migration.AutoMigrate "DbIncident"; Migration.AutoMigrate "DbFlight";
   Migration.AutoMigrate "DbCredentials"; Migration.AutoMigrate "DbUserScope";
   Migration.AutoMigrate "DbUserGroup"; Migration.AutoMigrate "DbUser";
   Migration.AddForeignKey "DbCredentials" "user_id" "db_users(id)" "CASCADE" "CASCADE";
   Migration.AddForeignKey "DbLocation" "countrypart_referer" "db_countryparts(id)"
                           "SET NULL" "SET NULL";
   Migration.AddForeignKey "DbLocation" "coordinates_referer" "db_coordinates(id)"
                           "SET NULL" "SET NULL"].

(** The positions, from 0, of the statements whose error the Go file
    looks at: the last one before each [if err != nil]. *)
Definition checked_positions : list nat := [3; 6; 8; 12; 16; 19]%nat.

(** How many statements go out: up to the first rejected checked one. *)
Definition statements_sent (d : Migration.Schema) : nat :=
  match find (fun k => ddl_rejects k d) checked_positions with
  | Some k => S k
  | None => 20
  end.

(** The schema [dk] is [d] after the first [k] statements of the
    migration have been sent. *)
Definition migrated (k : nat) (d dk : Migration.Schema) : Prop :=
  Migration.journal dk = (Migration.journal d ++ firstn k migration_statements)%list
  /\ Migration.script dk = skipn k (Migration.script d).

(** The last step of [UpdateUser]: the user is saved, and the mapping of
    the record built from the input is returned whatever the outcome. *)
Definition save_user (demapUser : DbUser.t -> common.User.t) (dbUser : DbUser.t)
  : ORM (common.User.t * option error) :=
  '(_, err) <- gorm.Save dbUser ;;
  ret (demapUser dbUser, errors.Wrap err "Unable to update a user").

(** A user without secrets, and one with a new hash and salt. *)
Definition bo : common.User.t := common.User.mk 0 "bo" None None.

Definition adaNewPassword : common.User.t :=
  common.User.mk 0 "ada" (Some [7; 7]) (Some [9; 9]).

(** A store with the user "ada" and her credentials. *)
Definition adaStore (sc : list bool) : DB :=
  mkDB [] [] [] [DbUser.mk 1 "ada"]
       [DbCredentials.mk 1 1 (Some [1; 2; 3]) (Some [4; 5; 6])] sc [] 0.

(** The credentials [UpdateUser] looks for, and the row it saves. *)
Definition credentials_of (ID : N) (d : DB) : option DbCredentials.t :=
  first_by_pk (filter (fun c => DbCredentials.UserID c =? ID) (credentials d)).

Definition with_secrets (hash salt : list N) (c : DbCredentials.t) : DbCredentials.t :=
  DbCredentials.mk (DbCredentials.ID c) (DbCredentials.UserID c) (Some hash) (Some salt).

(** Invariant 1 and 3 of the data model, as references that resolve:
    every location row points to a stored Coordinates row, and to a
    stored CountryPart row unless its reference is 0. *)
Definition references_resolve (d : DB) : Prop :=
  forall l, In l (locations d) ->
    In (DbLocation.CoordinatesReferer l) (map DbCoordinates.ID (coordinates d))
    /\ (DbLocation.CountrypartReferer l = 0
        \/ In (DbLocation.CountrypartReferer l) (map DbCountryPart.ID (countryparts d))).

(** The in-memory record [CreateLocation] inserts, given the outcome of
    the resolution and the store it is inserted into. *)
Definition created_location (location : common.Location.t) (d : DB)
           (partID : N) (d2 : DB) : DbLocation.t :=
  DbLocation.mk (next_key (map DbLocation.ID (locations d2))) None
                (common.Location.Name location)
                (stored_coordinates location d)
                (DbCoordinates.ID (stored_coordinates location d))
                (part_of location) partID.

(** What a look-up of a Location leaves of it: the columns of the row,
    the embedded coordinates and country part left empty. *)
Definition columns_only (l : common.Location.t) : common.Location.t :=
  common.Location.mk (common.Location.ID l) (common.Location.Name l)
                     0%float 0%float "" "" ""
                     (common.Location.CoordinatesID l) (common.Location.CountryPartID l).

(** The columns of a location row other than the deletion marker. *)
Definition kept_columns (l : DbLocation.t) : N * string * N * N :=
  (DbLocation.ID l, DbLocation.Name l, DbLocation.CoordinatesReferer l,
   DbLocation.CountrypartReferer l).

(** The record [UpdateLocation] works on after its look-up: the live row
    under the identifier, or an empty record when the look-up is
    rejected or finds nothing. *)
Definition looked_up (ID : N) (d : DB) : DbLocation.t :=
  if rejects 0 d then DbLocation.zero
  else match find_live ID d with
       | Some r => r
       | None => DbLocation.zero
       end.

(** ** Auxiliary facts *)

Lemma same_triple_key (p r : DbCountryPart.t) :
  same_triple p r = true <-> triple_key r = triple_key p.
Proof.
  unfold same_triple, sql_eq, triple_key.
  rewrite !andb_true_iff, !String.eqb_eq. split.
  - intros [[-> ->] ->]. reflexivity.
  - intros E. injection E as -> -> ->. auto.
Qed.

Lemma same_triple_refl (p : DbCountryPart.t) (id : N) :
  same_triple p (DbCountryPart.withID id p) = true.
Proof. apply same_triple_key. reflexivity. Qed.

Lemma next_key_above (keys : list N) (k : N) : In k keys -> k < next_key keys.
Proof.
  unfold next_key. induction keys as [|a keys IH]; simpl; [tauto|].
  intros [->|H]; [lia|]. specialize (IH H). lia.
Qed.

Lemma next_key_nonzero (keys : list N) : next_key keys <> 0.
Proof. unfold next_key. lia. Qed.

Lemma first_by_pk_none {R : Type} `{Model R} (l : list R) :
  first_by_pk l = None <-> l = [].
Proof.
  destruct l as [|r l]; simpl; [tauto|].
  split; [|discriminate].
  destruct (first_by_pk l); [destruct (pk r <=? pk r0)|]; discriminate.
Qed.

Lemma first_by_pk_In {R : Type} `{Model R} (l : list R) (r : R) :
  first_by_pk l = Some r -> In r l.
Proof.
  revert r. induction l as [|a l IH]; simpl; [discriminate|].
  intros r. destruct (first_by_pk l) as [r'|].
  - destruct (pk a <=? pk r'); intros [= <-]; auto.
  - intros [= <-]. auto.
Qed.

Lemma filter_unique_key (k : DbCountryPart.t) (l : list DbCountryPart.t) :
  NoDup (map triple_key l) -> (List.length (filter (same_triple k) l) <= 1)%nat.
Proof.
  induction l as [|a l IH]; simpl; [lia|].
  intros ND. inversion ND as [|? ? Hnin ND']; subst.
  destruct (same_triple k a) eqn:Ea; [|auto].
  simpl. destruct (filter (same_triple k) l) as [|r rest] eqn:Ef; [simpl; lia|].
  exfalso. apply Hnin.
  assert (Hr : In r (filter (same_triple k) l)) by (rewrite Ef; left; reflexivity).
  apply filter_In in Hr. destruct Hr as [Hin Hk].
  apply same_triple_key in Ea. apply same_triple_key in Hk.
  rewrite Ea, <- Hk. apply in_map. exact Hin.
Qed.

(** What [getCountryPart] and [resolveCountryPart] compute, statement by
    statement. *)
Lemma getCountryPart_eq (part : DbCountryPart.t) (d : DB) :
  getCountryPart part d =
  (if rejects 0 d then 0
   else match first_by_pk (filter (same_triple part) (countryparts d)) with
        | Some r => DbCountryPart.ID r
        | None => 0
        end,
   advance (SELECT db_countryparts) d).
Proof.
  destruct d as [cps cos ls us crs sc j t].
  unfold getCountryPart, gorm.First, bind, issue, ret, rejects, advance; simpl.
  destruct sc as [|[|] sc]; simpl; try reflexivity;
    destruct (first_by_pk (filter (same_triple part) cps)); reflexivity.
Qed.

Lemma resolveCountryPart_eq (part : DbCountryPart.t) (d : DB) :
  DbCountryPart.isEmpty part = false ->
  DbCountryPart.ID part = 0 ->
  resolveCountryPart part d =
  match (if rejects 0 d then None
         else first_by_pk (filter (same_triple part) (countryparts d))) with
  | Some r =>
      if DbCountryPart.ID r =? 0 then insert_branch part d
      else (DbCountryPart.ID r, advance (SELECT db_countryparts) d)
  | None => insert_branch part d
  end.
Proof.
  intros He Hid. unfold resolveCountryPart. rewrite He.
  change (negb false) with true. cbv iota. unfold bind at 1. cbv beta.
  rewrite getCountryPart_eq.
  assert (Hins :
    (bind (gorm.Create part)
       (fun x => let '(part0, err) := x in
                 match err with
                 | Some _ => ret 0
                 | None => ret (DbCountryPart.ID part0)
                 end)) (advance (SELECT db_countryparts) d) = insert_branch part d).
  { destruct d as [cps cos ls us crs sc j t].
    unfold insert_branch, new_part, gorm.Create, bind, issue, ret, rejects, advance.
    simpl. rewrite Hid. simpl.
    destruct sc as [|b1 [|[|] sc]]; reflexivity. }
  destruct (rejects 0 d).
  - simpl. exact Hins.
  - destruct (first_by_pk (filter (same_triple part) (countryparts d))) as [r|].
    + destruct (DbCountryPart.ID r =? 0); [exact Hins|reflexivity].
    + simpl. exact Hins.
Qed.

Lemma calm_rejects (n i : nat) (d : DB) :
  calm n d = true -> (i < n)%nat -> rejects i d = false.
Proof.
  unfold calm, rejects. generalize (script d) as sc. revert i.
  induction n as [|n IH]; intros i sc Hc Hi; [lia|].
  destruct sc as [|b sc]; [destruct i; reflexivity|].
  simpl in Hc. apply andb_true_iff in Hc. destruct Hc as [Hb Hc].
  destruct i as [|i]; simpl.
  - destruct b; [discriminate|reflexivity].
  - apply IH; [exact Hc|lia].
Qed.

Lemma rejects_advance (i : nat) (s : statement) (d : DB) :
  rejects i (advance s d) = rejects (S i) d.
Proof.
  unfold rejects, advance, issue. simpl.
  destruct (script d); simpl; [destruct i|]; reflexivity.
Qed.

(** ** Country-part deduplication *)


(** Two Locations created with the same triple reference one CountryPart
    row. *)
Example CreateLocation_shares_country_part :
  map DbLocation.CountrypartReferer (locations threeLocations) = [1; 1; 0]
  /\ countryparts threeLocations = [DbCountryPart.mk 1 "Oslo" "0150" "East"].
Proof. split; reflexivity. Qed.

(** C3.  For the empty sentinel [resolveCountryPart] returns 0 at once:
    the store is left exactly as it was, so no statement was sent (the
    journal and the script are untouched) and no row was inserted. *)
Theorem resolveCountryPart_empty_sentinel :
  forall (part : DbCountryPart.t) (d : DB),
    DbCountryPart.isEmpty part = true ->
    resolveCountryPart part d = (0, d).
Proof.
  intros part d He. unfold resolveCountryPart. rewrite He. reflexivity.
Qed.


Lemma resolveCountryPart_empty_sentinel_witness :
  resolveCountryPart DbCountryPart.zero (storeWith [bergenPart] [true]) =
  (0, storeWith [bergenPart] [true]).
Proof.
  apply (resolveCountryPart_empty_sentinel DbCountryPart.zero). reflexivity.
Defined.

Lemma Create_failure_keeps_tables (part : DbCountryPart.t) (d : DB) :
  snd (fst (gorm.Create part d)) <> None ->
  fst (fst (gorm.Create part d)) = part /\ same_tables d (snd (gorm.Create part d)).
Proof.
  destruct d as [cps cos ls us crs sc j t].
  unfold gorm.Create, bind, issue, ret, same_tables. simpl.
  destruct (hd false sc); simpl; [intros _; repeat split|].
  destruct (DbCountryPart.ID part =? 0); simpl; [intros H; contradiction H; reflexivity|].
  destruct (existsb _ _); simpl; [intros _; repeat split|].
  intros H; contradiction H; reflexivity.
Qed.

(** C6.  When no row matches a non-empty triple and the insert that
    [resolveCountryPart] then performs fails, the function returns 0 and
    no error: the very value it returns for the empty sentinel, so the
    caller cannot tell "no country part supplied" from "insert failed".
    The tables are left as they were. *)
Theorem resolveCountryPart_insert_failure_silent :
  forall (part : DbCountryPart.t) (d : DB),
    DbCountryPart.isEmpty part = false ->
    filter (same_triple part) (countryparts d) = [] ->
    snd (fst (gorm.Create part (advance (SELECT db_countryparts) d))) <> None ->
    fst (resolveCountryPart part d) = 0
    /\ fst (resolveCountryPart part d) = fst (resolveCountryPart DbCountryPart.zero d)
    /\ same_tables d (snd (resolveCountryPart part d)).
Proof.
  intros part d He Hf Hfail.
  destruct (Create_failure_keeps_tables part _ Hfail) as [_ Hsame].
  assert (Hz : resolveCountryPart DbCountryPart.zero d = (0, d)) by reflexivity.
  assert (E : exists d', resolveCountryPart part d = (0, d') /\ same_tables d d').
  { unfold resolveCountryPart. rewrite He.
    change (negb false) with true. cbv iota. unfold bind at 1. cbv beta.
    rewrite getCountryPart_eq, Hf.
    assert (E0 : forall b : bool,
               (if b then 0
                else match @first_by_pk DbCountryPart.t _ [] with
                     | Some r => DbCountryPart.ID r
                     | None => 0
                     end) = 0) by (intros []; reflexivity).
    rewrite E0. change (0 =? 0) with true. cbv iota. unfold bind at 1.
    destruct (gorm.Create part (advance (SELECT db_countryparts) d)) as [[p' e] d2].
    cbn [fst snd] in *.
    destruct e as [e|]; [|contradiction Hfail; reflexivity].
    exists d2. split; [reflexivity|exact Hsame]. }
  destruct E as (d' & -> & Hs). rewrite Hz. cbn [fst snd]. auto.
Qed.

Lemma resolveCountryPart_insert_failure_silent_witness :
  fst (resolveCountryPart osloPart (storeWith [bergenPart] [false; true])) = 0
  /\ fst (resolveCountryPart osloPart (storeWith [bergenPart] [false; true]))
     = fst (resolveCountryPart DbCountryPart.zero (storeWith [bergenPart] [false; true]))
  /\ same_tables (storeWith [bergenPart] [false; true])
       (snd (resolveCountryPart osloPart (storeWith [bergenPart] [false; true]))).
Proof.
  apply (resolveCountryPart_insert_failure_silent osloPart
           (storeWith [bergenPart] [false; true])).
  - reflexivity.
  - reflexivity.
  - simpl. discriminate.
Defined.

Lemma key_in_filter (part : DbCountryPart.t) (l : list DbCountryPart.t) :
  In (triple_key part) (map triple_key l) <-> filter (same_triple part) l <> [].
Proof.
  split.
  - intros H. apply in_map_iff in H. destruct H as (r & Hk & Hin).
    assert (Hr : In r (filter (same_triple part) l)).
    { apply filter_In. split; [exact Hin|]. apply same_triple_key. exact Hk. }
    intros E. rewrite E in Hr. exact Hr.
  - destruct (filter (same_triple part) l) as [|r rest] eqn:Ef; [intros H; contradiction H; reflexivity|].
    intros _.
    assert (Hr : In r (filter (same_triple part) l)) by (rewrite Ef; left; reflexivity).
    apply filter_In in Hr. destruct Hr as [Hin Hk].
    apply same_triple_key in Hk. rewrite <- Hk. apply in_map. exact Hin.
Qed.

(** C9.  [getCountryPart] answers 0 both when no row matches and when the
    look-up statement is rejected.  After a rejected look-up
    [resolveCountryPart] therefore inserts a new row, also when a matching
    row is already stored, and the no-duplicate-triples invariant is
    lost; when the look-up statement succeeds the invariant is kept. *)
Theorem lookup_failure_defeats_dedup :
  forall (part : DbCountryPart.t) (d : DB),
    DbCountryPart.isEmpty part = false ->
    DbCountryPart.ID part = 0 ->
    keys_nonzero d ->
    no_duplicate_triples d ->
    let d' := snd (resolveCountryPart part d) in
    (rejects 0 d = true -> fst (getCountryPart part d) = 0)
    /\ (filter (same_triple part) (countryparts d) = [] ->
        fst (getCountryPart part d) = 0)
    /\ (rejects 0 d = true -> rejects 1 d = false ->
        countryparts d' = (countryparts d ++ [new_part part d])%list
        /\ (filter (same_triple part) (countryparts d) <> [] ->
            ~ no_duplicate_triples d'))
    /\ (rejects 0 d = false -> no_duplicate_triples d' /\ keys_nonzero d').
Proof.
  intros part d He Hid Hnz Hnd d'. subst d'.
  rewrite (resolveCountryPart_eq part d He Hid), getCountryPart_eq. cbn [fst].
  split; [intros ->; reflexivity|].
  split; [intros ->; destruct (rejects 0 d); reflexivity|].
  split.
  - intros -> R1. unfold insert_branch. rewrite R1. cbn [snd].
    split; [reflexivity|].
    intros Hex ND. unfold no_duplicate_triples in ND.
    change (NoDup (map triple_key (countryparts d ++ [new_part part d]))) in ND.
    rewrite map_app in ND. simpl in ND.
    apply NoDup_remove_2 in ND. rewrite app_nil_r in ND.
    apply ND. apply key_in_filter in Hex. exact Hex.
  - intros ->.
    destruct (first_by_pk (filter (same_triple part) (countryparts d))) as [r|] eqn:Ef.
    + apply first_by_pk_In, filter_In in Ef. destruct Ef as [Hin _].
      assert (Hk : DbCountryPart.ID r <> 0).
      { unfold keys_nonzero in Hnz. rewrite Forall_forall in Hnz. apply Hnz, Hin. }
      apply N.eqb_neq in Hk. rewrite Hk. cbn [snd]. split; assumption.
    + apply first_by_pk_none in Ef. unfold insert_branch.
      destruct (rejects 1 d); cbn [snd]; [split; assumption|].
      split.
      * unfold no_duplicate_triples.
        change (NoDup (map triple_key (countryparts d ++ [new_part part d]))).
        rewrite map_app. apply NoDup_app; [exact Hnd|repeat constructor; simpl; tauto|].
        intros k Hin [Hk|[]]. subst k.
        change (triple_key (new_part part d)) with (triple_key part) in Hin.
        apply key_in_filter in Hin. contradiction.
      * unfold keys_nonzero.
        change (Forall (fun p => DbCountryPart.ID p <> 0)
                       (countryparts d ++ [new_part part d])).
        apply Forall_app. split; [exact Hnz|].
        constructor; [apply next_key_nonzero|constructor].
Qed.

Lemma lookup_failure_defeats_dedup_witness :
  fst (getCountryPart osloPart (storeWith [osloStored] [true])) = 0
  /\ countryparts (snd (resolveCountryPart osloPart (storeWith [osloStored] [true])))
     = [osloStored; DbCountryPart.mk 2 "Oslo" "0150" "East"]
  /\ ~ no_duplicate_triples (snd (resolveCountryPart osloPart (storeWith [osloStored] [true])))
  /\ no_duplicate_triples (snd (resolveCountryPart osloPart (storeWith [osloStored] []))).
Proof.
  assert (Hnz : forall sc, keys_nonzero (storeWith [osloStored] sc)).
  { intros sc. repeat constructor. discriminate. }
  assert (Hnd : forall sc, no_duplicate_triples (storeWith [osloStored] sc)).
  { intros sc. repeat constructor. simpl. intros H. exact H. }
  destruct (lookup_failure_defeats_dedup osloPart (storeWith [osloStored] [true])
              eq_refl eq_refl (Hnz _) (Hnd _)) as (H1 & _ & H3 & _).
  destruct (lookup_failure_defeats_dedup osloPart (storeWith [osloStored] [])
              eq_refl eq_refl (Hnz _) (Hnd _)) as (_ & _ & _ & H4).
  destruct (H3 eq_refl eq_refl) as [Hrows Hdup].
  split; [exact (H1 eq_refl)|].
  split; [exact Hrows|].
  split; [apply Hdup; simpl; discriminate|].
  exact (proj1 (H4 eq_refl)).
Defined.

(** ** Creating a location *)

Lemma rejects_0 (d : DB) : rejects 0 d = hd false (script d).
Proof. unfold rejects. destruct (script d); reflexivity. Qed.

Lemma Create_zero_key {R : Type} `{Model R} (value : R) (d : DB) :
  pk value = 0 ->
  gorm.Create value d =
  let d1 := advance (INSERT table_of) d in
  if rejects 0 d then ((value, Some ErrDriver), d1)
  else
    let created := with_pk (next_key (map pk (rows d1))) value in
    ((created, None), put_rows (rows d1 ++ [columns created]) d1).
Proof.
  intros Hk. unfold gorm.Create, bind, ret, advance. rewrite rejects_0.
  cbn [issue fst snd]. destruct (hd false (script d)); [reflexivity|].
  rewrite Hk. reflexivity.
Qed.

Lemma sends_advance (s : statement) (d : DB) : sends d (advance s d) [s].
Proof.
  unfold sends, advance, issue. simpl. repeat split.
Qed.

Lemma sends_trans (d d1 d2 : DB) (s1 s2 : list statement) :
  sends d d1 s1 -> sends d1 d2 s2 -> sends d d2 (s1 ++ s2).
Proof.
  unfold sends. intros (J1 & S1 & N1) (J2 & S2 & N2).
  rewrite J2, J1, S2, S1, N2, N1, app_assoc, length_app, skipn_skipn.
  rewrite Nat.add_comm. repeat split.
Qed.

Lemma Create_part_frame (part : DbCountryPart.t) (d : DB) :
  only_countryparts d (snd (gorm.Create part d))
  /\ sends d (snd (gorm.Create part d)) [INSERT db_countryparts].
Proof.
  destruct d as [cps cos ls us crs sc j t].
  unfold gorm.Create, bind, issue, ret, only_countryparts, sends. simpl.
  destruct (hd false sc); simpl; [|destruct (DbCountryPart.ID part =? 0); simpl;
                                    [|destruct (existsb _ _); simpl]];
    repeat split; destruct sc; reflexivity.
Qed.

Lemma resolveCountryPart_frame (part : DbCountryPart.t) (d : DB) :
  countrypart_step d (snd (resolveCountryPart part d)).
Proof.
  unfold resolveCountryPart. destruct (DbCountryPart.isEmpty part); cbn [negb].
  - unfold ret. cbn [snd]. split; [repeat split|].
    exists []. split; [|constructor].
    unfold sends. rewrite app_nil_r. repeat split.
  - unfold bind at 1. cbv beta. rewrite getCountryPart_eq.
    pose proof (sends_advance (SELECT db_countryparts) d) as Hsel.
    set (d1 := advance (SELECT db_countryparts) d) in *.
    assert (Hins :
      countrypart_step d
        (snd ((bind (gorm.Create part)
                 (fun x => let '(part0, err) := x in
                           match err with
                           | Some _ => ret 0
                           | None => ret (DbCountryPart.ID part0)
                           end)) d1))).
    { unfold bind. destruct (Create_part_frame part d1) as [Ho Hs].
      destruct (gorm.Create part d1) as [[p' e] d2]. cbn [snd] in *.
      assert (Hd2 : forall n : N, snd (ret n d2) = d2) by reflexivity.
      destruct e; rewrite Hd2; (split; [exact Ho|]);
        exists [SELECT db_countryparts; INSERT db_countryparts];
        (split; [exact (sends_trans _ _ _ _ _ Hsel Hs)|]);
        (constructor; [left; reflexivity|constructor; [right; reflexivity|constructor]]). }
    destruct (_ =? 0); [exact Hins|].
    unfold ret. cbn [snd]. split; [repeat split|].
    exists [SELECT db_countryparts]. split; [exact Hsel|].
    constructor; [left; reflexivity|constructor].
Qed.



(** ** Updating a location *)

Lemma First_eq {R : Type} `{Model R} (cond : R -> bool) (dest : R) (d : DB) :
  gorm.First cond dest d =
  let d1 := advance (SELECT table_of) d in
  (if rejects 0 d then (dest, Some ErrDriver)
   else match first_by_pk (filter (fun r => live r && cond r) (rows d1)) with
        | Some r => (r, None)
        | None => (dest, Some ErrRecordNotFound)
        end,
   d1).
Proof.
  unfold gorm.First, bind, ret, advance. rewrite rejects_0.
  cbn [issue fst snd]. destruct (hd false (script d)); [reflexivity|].
  destruct (first_by_pk _); reflexivity.
Qed.

Lemma Save_location_frame (value : DbLocation.t) (d : DB) :
  let d' := snd (gorm.Save value d) in
  countryparts d' = countryparts d /\ coordinates d' = coordinates d
  /\ users d' = users d /\ credentials d' = credentials d.
Proof.
  destruct d as [cps cos ls us crs sc j t].
  unfold gorm.Save, gorm.Create, bind, issue, ret. simpl.
  destruct (DbLocation.ID value =? 0); simpl.
  - destruct (hd false sc); simpl; repeat split.
  - destruct (hd false sc); simpl; [repeat split|].
    destruct (existsb _ ls); simpl; [repeat split|].
    destruct (hd false (tl sc)); simpl; [repeat split|].
    destruct (hd false (tl (tl sc))); simpl; [repeat split|].
    destruct (existsb _ _); simpl; repeat split.
Qed.

Lemma Save_update (value : DbLocation.t) (d : DB) :
  DbLocation.ID value <> 0 ->
  existsb (fun r => live r && (DbLocation.ID r =? DbLocation.ID value)) (locations d) = true ->
  gorm.Save value d =
  let d1 := advance (UPDATE db_locations) d in
  if rejects 0 d then ((value, Some ErrDriver), d1)
  else ((value, None),
        put_rows (map (fun r => if live r && (DbLocation.ID r =? DbLocation.ID value)
                                then DbLocation.columns value else r) (locations d)) d1).
Proof.
  intros Hk Hex. apply N.eqb_neq in Hk.
  unfold gorm.Save, bind, ret, advance. cbn [pk Model_DbLocation]. rewrite Hk, rejects_0.
  cbn [issue fst snd]. destruct (hd false (script d)); [reflexivity|].
  cbn [rows Model_DbLocation locations]. rewrite Hex. reflexivity.
Qed.

(** C5.  [UpdateLocation] never writes to the coordinates table, whatever
    the update input carries: the stored longitude and latitude stay as
    they were.  When the location exists and the update goes through, its
    CountryPart reference is the identifier [resolveCountryPart] yields
    for the triple of the input, in the row stored and in the Location
    returned; its coordinates reference is untouched. *)
Theorem UpdateLocation_keeps_coordinates :
  forall (ID : N) (location : common.Location.t) (d : DB),
    let out := fst (fst (UpdateLocation ID location d)) in
    let err := snd (fst (UpdateLocation ID location d)) in
    let d' := snd (UpdateLocation ID location d) in
    let partID :=
      fst (resolveCountryPart (part_of location) (advance (SELECT db_locations) d)) in
    coordinates d' = coordinates d
    /\ forall l : DbLocation.t,
         find_live ID d = Some l -> ID <> 0 -> rejects 0 d = false -> err = None ->
         common.Location.CountryPartID out = partID
         /\ common.Location.CoordinatesID out = DbLocation.CoordinatesReferer l
         /\ locations d' =
            map (fun r => if live r && (DbLocation.ID r =? ID)
                          then updated_row partID l else r) (locations d)
         /\ countryparts d' =
            countryparts (snd (resolveCountryPart (part_of location)
                                                  (advance (SELECT db_locations) d))).
Proof.
  intros ID location d out err d' partID. subst out err d' partID.
  destruct (UpdateLocation ID location d) as [[out err] d'] eqn:E. cbn [fst snd].
  unfold UpdateLocation, gorm.FirstByID, gorm.Related in E. unfold bind at 1 in E.
  rewrite First_eq in E. cbv zeta in E.
  set (d1 := advance (SELECT db_locations) d) in *.
  change (@table_of DbLocation.t _) with db_locations in E. fold d1 in E.
  change (rows d1) with (locations d) in E.
  change (DbCountryPart.mk 0 (common.Location.AreaName location)
            (common.Location.PostalCode location)
            (common.Location.CountryPart location)) with (part_of location) in E.
  change (first_by_pk (filter (fun r : DbLocation.t => live r && (pk r =? ID)) (locations d)))
    with (find_live ID d) in E.
  remember (if rejects 0 d then (DbLocation.zero, Some ErrDriver)
            else match find_live ID d with
                 | Some r => (r, None)
                 | None => (DbLocation.zero, Some ErrRecordNotFound)
                 end) as looked eqn:Hlooked.
  destruct looked as [existing e0]. unfold bind at 1 in E.
  pose proof (resolveCountryPart_frame (part_of location) d1) as [Ho _].
  destruct Ho as (Hco & Hlo & _ & _).
  destruct (resolveCountryPart (part_of location) d1) as [pid d2] eqn:Er.
  cbn [fst snd] in *. unfold bind at 1 in E. rewrite First_eq in E. cbv zeta in E.
  change (@table_of DbCoordinates.t _) with db_coordinates in E.
  set (d3 := advance (SELECT db_coordinates) d2) in *.
  assert (Hco' : coordinates d3 = coordinates d) by exact Hco.
  assert (Hlo' : locations d3 = locations d) by exact Hlo.
  destruct (if rejects 0 d2 then _ else _) as [cfound e1].
  destruct e1 as [e1|].
  - cbn [ret] in E. injection E as <- <- <-.
    split; [exact Hco'|]. intros l _ _ _ Herr. discriminate Herr.
  - unfold bind in E.
    pose proof (Save_location_frame (DbLocation.withCountrypartReferer pid existing) d3)
      as (Hcp4 & Hco4 & _).
    destruct (gorm.Save (DbLocation.withCountrypartReferer pid existing) d3)
      as [[saved e2] d4] eqn:Es.
    cbn [fst snd ret] in *. injection E as <- <- <-.
    split; [rewrite Hco4; exact Hco'|].
    intros l Hl Hid R0 Herr. rewrite R0, Hl in Hlooked. injection Hlooked as -> ->.
    assert (Hin : In l (locations d) /\ live l && (DbLocation.ID l =? ID) = true).
    { apply first_by_pk_In in Hl. apply filter_In in Hl. exact Hl. }
    destruct Hin as [Hin Hhit].
    assert (HID : DbLocation.ID l = ID).
    { apply andb_true_iff in Hhit. apply N.eqb_eq. tauto. }
    assert (Hex : existsb (fun r => live r &&
                (DbLocation.ID r =? DbLocation.ID (DbLocation.withCountrypartReferer pid l)))
              (locations d3) = true).
    { rewrite Hlo'. apply existsb_exists. exists l.
      split; [exact Hin|]. cbn [DbLocation.withCountrypartReferer DbLocation.ID].
      apply andb_true_iff in Hhit. destruct Hhit as [-> _]. rewrite N.eqb_refl.
      reflexivity. }
    rewrite Save_update in Es;
      [|cbn [DbLocation.withCountrypartReferer DbLocation.ID]; rewrite HID; exact Hid|exact Hex].
    cbv zeta in Es. destruct (rejects 0 d3).
    + injection Es as <- <- <-. discriminate Herr.
    + injection Es as <- <- <-.
      split; [reflexivity|]. split; [reflexivity|].
      split; [|reflexivity].
      cbn [locations put_rows Model_DbLocation].
      assert (Hl2 : locations d2 = locations d) by exact Hlo.
      rewrite Hl2, HID. reflexivity.
Qed.

Lemma UpdateLocation_keeps_coordinates_witness :
  let d := snd (CreateLocation osloVest emptyDB) in
  let d' := snd (UpdateLocation 1 osloVestMoved d) in
  coordinates d = [DbCoordinates.mk 1 10%float 59.9%float]
  /\ coordinates d' = coordinates d
  /\ common.Location.CountryPartID (fst (fst (UpdateLocation 1 osloVestMoved d))) = 2
  /\ map DbLocation.CountrypartReferer (locations d') = [2]
  /\ map DbLocation.CoordinatesReferer (locations d') = [1].
Proof.
  intros d d'.
  destruct (UpdateLocation_keeps_coordinates 1 osloVestMoved d) as [Hc H].
  destruct (H (DbLocation.mk 1 None "Oslo Vest" DbCoordinates.zero 1 DbCountryPart.zero 1)
              eq_refl (fun E : 1 = 0 => N.neq_succ_0 0 E) eq_refl eq_refl)
    as (Hp & _ & Hl & _).
  split; [reflexivity|]. split; [exact Hc|]. split; [exact Hp|].
  subst d'. rewrite Hl. split; reflexivity.
Defined.

(** C4.  On a store without any location, [UpdateLocation] with a
    non-empty triple drops the error of its look-up, goes on, and inserts
    a CountryPart row; the error it finally reports comes from the later
    look-up of the coordinates. *)
Lemma UpdateLocation_absent_still_writes :
  let r := UpdateLocation 7 osloVest emptyDB in
  find_live 7 emptyDB = None
  /\ snd (fst r) = Some ErrRecordNotFound
  /\ countryparts (snd r) = [DbCountryPart.mk 1 "Oslo" "0150" "East"]
  /\ journal (snd r) =
     [SELECT db_locations; SELECT db_countryparts; INSERT db_countryparts;
      SELECT db_coordinates]
  /\ ~ same_tables emptyDB (snd r).
Proof.
  repeat split. intros (H & _). discriminate H.
Qed.

(** ** Deleting a location *)

Lemma soft_deleted_none_live (id t : N) (ls : list DbLocation.t) :
  filter (fun r => live r && (DbLocation.ID r =? id)) (soft_deleted id t ls) = [].
Proof.
  induction ls as [|r ls IH]; [reflexivity|].
  simpl. destruct (DbLocation.DeletedAt r) as [at_|] eqn:Ed; simpl.
  - rewrite Ed. simpl. exact IH.
  - destruct (DbLocation.ID r =? id) eqn:Ei.
    + rewrite orb_true_r. simpl. exact IH.
    + destruct (id =? 0); simpl.
      * exact IH.
      * rewrite Ed, Ei. simpl. exact IH.
Qed.

Lemma find_live_none_search (id : N) (name : string) (d : DB) :
  filter (fun r => live r && (DbLocation.ID r =? id)) (locations d) = [] ->
  ~ In id (map common.Location.ID (fst (fst (LocationSearchByName name d)))).
Proof.
  intros Hnone. unfold LocationSearchByName, gorm.Find, bind, ret.
  cbn [issue fst snd]. destruct (hd false (script d)); cbn [fst snd]; [intros []|].
  intros Hin. unfold demapLocations in Hin. rewrite map_map in Hin.
  apply in_map_iff in Hin. destruct Hin as (r & Hid & Hr).
  cbn [rows Model_DbLocation locations] in Hr.
  apply filter_In in Hr. destruct Hr as [Hr Hlive].
  apply andb_true_iff in Hlive. destruct Hlive as [Hlive _].
  assert (Hf : In r (filter (fun r => live r && (DbLocation.ID r =? id)) (locations d))).
  { apply filter_In. split; [exact Hr|]. rewrite Hlive. simpl in Hid. rewrite Hid.
    rewrite N.eqb_refl. reflexivity. }
  rewrite Hnone in Hf. exact Hf.
Qed.

(** C7.  [DeleteLocation] on an identifier without a live Location row
    returns a NotFoundError (the look-up itself going through) and writes
    nothing.  On an identifier with a live row it is a soft delete: the
    table keeps all its rows, the row now carries the deletion marker,
    and it no longer shows in [GetLocation] or in any
    [LocationSearchByName] result. *)
Theorem DeleteLocation_soft_delete :
  forall (ID : N) (d : DB),
    let err := fst (DeleteLocation ID d) in
    let d' := snd (DeleteLocation ID d) in
    (find_live ID d = None -> rejects 0 d = false ->
       (exists e, err = Some e /\ NotFoundError e) /\ same_tables d d')
    /\ (forall l : DbLocation.t,
          find_live ID d = Some l -> calm 2 d = true ->
          err = None
          /\ locations d' = soft_deleted ID (now d) (locations d)
          /\ List.length (locations d') = List.length (locations d)
          /\ In (DbLocation.withDeletedAt (Some (now d)) l) (locations d')
          /\ find_live ID d' = None
          /\ (exists e, snd (fst (GetLocation ID d')) = Some e)
          /\ (rejects 0 d' = false ->
              exists e, snd (fst (GetLocation ID d')) = Some e /\ NotFoundError e)
          /\ forall name : string,
               ~ In ID (map common.Location.ID
                            (fst (fst (LocationSearchByName name d'))))).
Proof.
  intros ID d err d'. subst err d'.
  destruct (DeleteLocation ID d) as [err d'] eqn:E. cbn [fst snd].
  unfold DeleteLocation, gorm.FirstByID in E. unfold bind at 1 in E.
  rewrite First_eq in E. cbv zeta in E.
  change (@table_of DbLocation.t _) with db_locations in E.
  set (d1 := advance (SELECT db_locations) d) in *.
  change (first_by_pk (filter (fun r : DbLocation.t => live r && (pk r =? ID)) (rows d1)))
    with (find_live ID d) in E.
  split.
  - intros Hnone R0. rewrite R0, Hnone in E. cbn [errors.Wrap ret] in E.
    injection E as <- <-. split; [|repeat split].
    eexists. split; [reflexivity|reflexivity].
  - intros l Hl Hcalm.
    assert (R0 : rejects 0 d = false) by (apply (calm_rejects 2); [exact Hcalm|lia]).
    assert (R1 : rejects 1 d = false) by (apply (calm_rejects 2); [exact Hcalm|lia]).
    rewrite R0, Hl in E. cbn [errors.Wrap] in E.
    unfold gorm.Delete, bind, ret in E. cbn [issue fst snd] in E.
    assert (R1' : hd false (script d1) = false).
    { rewrite <- rejects_0. unfold d1. rewrite rejects_advance. exact R1. }
    rewrite R1' in E. injection E as <- <-.
    cbn [locations put_rows Model_DbLocation now DbLocation.withID DbLocation.ID].
    fold (soft_deleted ID (now d) (locations d)).
    assert (Hhit : In l (locations d) /\ live l && (DbLocation.ID l =? ID) = true).
    { apply first_by_pk_In in Hl. apply filter_In in Hl. exact Hl. }
    destruct Hhit as [Hin Hhit].
    pose proof (soft_deleted_none_live ID (now d) (locations d)) as Hnone.
    split; [reflexivity|]. split; [reflexivity|].
    split; [unfold soft_deleted; apply length_map|].
    split.
    { unfold soft_deleted. apply in_map_iff. exists l. split; [|exact Hin].
      cbn [live Model_DbLocation] in Hhit.
      apply andb_true_iff in Hhit. destruct Hhit as [-> ->].
      rewrite orb_true_r. reflexivity. }
    split.
    { unfold find_live.
      change (first_by_pk (filter (fun r => live r && (DbLocation.ID r =? ID))
                                  (soft_deleted ID (now d) (locations d))) = None).
      rewrite Hnone. reflexivity. }
    assert (HG : forall dd, locations dd = soft_deleted ID (now d) (locations d) ->
                 (exists e, snd (fst (GetLocation ID dd)) = Some e)
                 /\ (rejects 0 dd = false ->
                     exists e, snd (fst (GetLocation ID dd)) = Some e /\ NotFoundError e)).
    { intros dd Hdd. unfold GetLocation, gorm.FirstByID. unfold bind.
      rewrite First_eq. cbv zeta.
      change (rows (advance (SELECT (@table_of DbLocation.t _)) dd)) with (locations dd).
      rewrite Hdd.
      change (filter (fun r : DbLocation.t => live r && (pk r =? ID))
                     (soft_deleted ID (now d) (locations d)))
        with (filter (fun r => live r && (DbLocation.ID r =? ID))
                     (soft_deleted ID (now d) (locations d))).
      rewrite Hnone. cbn [first_by_pk].
      destruct (rejects 0 dd); cbn [errors.Wrap ret fst snd].
      - split; [eexists; reflexivity|discriminate].
      - split; [eexists; reflexivity|]. intros _. eexists. split; reflexivity. }
    split; [apply HG; reflexivity|]. split; [apply HG; reflexivity|].
    intros name. apply find_live_none_search. exact Hnone.
Qed.

Lemma DeleteLocation_soft_delete_witness :
  (exists e, fst (DeleteLocation 9 threeLocations) = Some e /\ NotFoundError e)
  /\ fst (DeleteLocation 2 threeLocations) = None
  /\ map DbLocation.DeletedAt (locations (snd (DeleteLocation 2 threeLocations)))
     = [None; Some 0; None]
  /\ (exists e, snd (fst (GetLocation 2 (snd (DeleteLocation 2 threeLocations)))) = Some e
                /\ NotFoundError e)
  /\ ~ In 2 (map common.Location.ID
               (fst (fst (LocationSearchByName "oslo" (snd (DeleteLocation 2 threeLocations)))))).
Proof.
  destruct (DeleteLocation_soft_delete 9 threeLocations) as [Habsent _].
  destruct (DeleteLocation_soft_delete 2 threeLocations) as [_ Hpresent].
  destruct (Hpresent
              (DbLocation.mk 2 None "Oslofjorden" DbCoordinates.zero 2 DbCountryPart.zero 1)
              eq_refl eq_refl) as (He & Hrows & _ & _ & _ & _ & Hget & Hsearch).
  split; [exact (proj1 (Habsent eq_refl eq_refl))|].
  split; [exact He|].
  split; [rewrite Hrows; reflexivity|].
  split; [exact (Hget eq_refl)|exact (Hsearch "oslo")].
Defined.

(** ** Searching by name *)

Lemma lower_ascii_idem (c : ascii) : lower_ascii (lower_ascii c) = lower_ascii c.
Proof. destruct c as [[] [] [] [] [] [] [] []]; reflexivity. Qed.

Lemma wildcard_lower (c : ascii) : wildcard (lower_ascii c) = wildcard c.
Proof. destruct c as [[] [] [] [] [] [] [] []]; reflexivity. Qed.

Lemma like_percent (s : string) : like "%" s = true.
Proof.
  induction s as [|x s IH]; [reflexivity|].
  simpl in *. exact IH.
Qed.

Lemma like_literal (c : ascii) (p s : string) :
  wildcard c = false ->
  like (String c p) s =
  match s with
  | EmptyString => false
  | String x s' => same_char c x && like p s'
  end.
Proof.
  unfold wildcard. intros H.
  apply orb_false_iff in H. destruct H as [H H3].
  apply orb_false_iff in H. destruct H as [H1 H2].
  cbn [like]. rewrite H1, H2, H3. reflexivity.
Qed.

Lemma like_plain_prefix (term : string) :
  plain term = true ->
  forall s : string,
    like (ToLower term ++ "%") s = String.prefix (ToLower term) (ToLower s).
Proof.
  induction term as [|c t IH]; intros Hp s.
  - simpl. rewrite like_percent. destruct (ToLower s); reflexivity.
  - simpl in Hp. apply andb_true_iff in Hp. destruct Hp as [Hc Ht].
    apply negb_true_iff in Hc.
    cbn [ToLower append]. rewrite like_literal by (rewrite wildcard_lower; exact Hc).
    destruct s as [|x s']; [reflexivity|].
    cbn [ToLower String.prefix]. unfold same_char. rewrite lower_ascii_idem.
    destruct (ascii_dec (lower_ascii c) (lower_ascii x)) as [E|E].
    + rewrite E, Ascii.eqb_refl. simpl. apply IH. exact Ht.
    + apply Ascii.eqb_neq in E. rewrite E. reflexivity.
Qed.




(** ** Creating a user *)

(** C10.  Once the insert of the base user has succeeded, [CreateUser]
    returns the created user and a nil error whatever becomes of the
    insert of the credentials: when that insert fails the credentials
    table is left without the row, and the call still reports success. *)
Theorem CreateUser_ignores_credentials_failure :
  forall (mapUser : common.User.t -> DbUser.t * DbCredentials.t)
         (demapUser : DbUser.t -> common.User.t)
         (user : common.User.t) (d : DB),
    let created := fst (fst (gorm.Create (fst (mapUser user)) d)) in
    let d1 := snd (gorm.Create (fst (mapUser user)) d) in
    let creds := DbCredentials.withUserID (DbUser.ID created) (snd (mapUser user)) in
    snd (fst (gorm.Create (fst (mapUser user)) d)) = None ->
    fst (CreateUser mapUser demapUser user d) = (demapUser created, None)
    /\ snd (CreateUser mapUser demapUser user d) = snd (gorm.Create creds d1)
    /\ (snd (fst (gorm.Create creds d1)) <> None ->
        credentials (snd (CreateUser mapUser demapUser user d)) = credentials d).
Proof.
  intros mapUser demapUser user d created d1 creds Hok.
  assert (Hu : credentials d1 = credentials d).
  { subst d1. generalize (fst (mapUser user)) as u. intros u. clear.
    destruct d as [cps cos ls us crs sc j t].
    unfold gorm.Create, bind, issue, ret. simpl.
    destruct (hd false sc); simpl; [reflexivity|].
    destruct (DbUser.ID u =? 0); simpl; [reflexivity|].
    destruct (existsb _ _); reflexivity. }
  assert (Hc : snd (fst (gorm.Create creds d1)) <> None ->
               credentials (snd (gorm.Create creds d1)) = credentials d1).
  { generalize creds as c. generalize d1 as dd. clear.
    intros [cps cos ls us crs sc j t] c.
    unfold gorm.Create, bind, issue, ret. simpl.
    destruct (hd false sc); simpl; [reflexivity|].
    destruct (DbCredentials.ID c =? 0); simpl; [intros H; contradiction H; reflexivity|].
    destruct (existsb _ _); simpl; [reflexivity|].
    intros H; contradiction H; reflexivity. }
  assert (E : CreateUser mapUser demapUser user d =
              ((demapUser created, None), snd (gorm.Create creds d1))).
  { subst created d1 creds. clear Hu Hc. unfold CreateUser.
    destruct (mapUser user) as [mappedUser mappedCreds]. cbn [fst snd] in *.
    unfold bind.
    destruct (gorm.Create mappedUser d) as [[u e] dd]. cbn [fst snd] in *. subst e.
    destruct (gorm.Create (DbCredentials.withUserID (DbUser.ID u) mappedCreds) dd)
      as [[c' e'] d2].
    destruct e'; reflexivity. }
  rewrite E. cbn [fst snd]. split; [reflexivity|]. split; [reflexivity|].
  intros H. rewrite (Hc H). exact Hu.
Qed.

Lemma CreateUser_ignores_credentials_failure_witness :
  let d := storeWith [] [false; true] in
  fst (CreateUser mapUserPlain demapUserPlain ada d)
  = (common.User.mk 1 "ada" None None, None)
  /\ users (snd (CreateUser mapUserPlain demapUserPlain ada d)) = [DbUser.mk 1 "ada"]
  /\ credentials (snd (CreateUser mapUserPlain demapUserPlain ada d)) = [].
Proof.
  intros d.
  destruct (CreateUser_ignores_credentials_failure mapUserPlain demapUserPlain ada d eq_refl)
    as (H1 & _ & H3).
  split; [exact H1|]. split; [reflexivity|].
  apply H3. simpl. discriminate.
Defined.

(** * Further properties *)

(** ** MigrateDatabase *)

Lemma firstn_snoc {A : Type} (k : nat) (l : list A) (a : A) :
  nth_error l k = Some a -> firstn (S k) l = (firstn k l ++ [a])%list.
Proof.
  revert l. induction k as [|k IH]; intros [|x l] H; try discriminate H.
  - injection H as ->. reflexivity.
  - simpl in H. change (x :: firstn (S k) l = x :: (firstn k l ++ [a])%list).
    f_equal. apply IH. exact H.
Qed.

Lemma hd_skipn (k : nat) (sc : list bool) : hd false (skipn k sc) = nth k sc false.
Proof.
  revert sc. induction k as [|k IH]; intros [|b sc]; try reflexivity. apply IH.
Qed.

Lemma tl_skipn (k : nat) (sc : list bool) : tl (skipn k sc) = skipn (S k) sc.
Proof.
  revert sc. induction k as [|k IH]; intros [|b sc]; try reflexivity.
  exact (IH sc).
Qed.

(** One statement of the migration, sent [k] statements after [d]. *)
Lemma exec_step (k : nat) (d dk : Migration.Schema) (s : Migration.ddl)
      (e : option error) (d' : Migration.Schema) :
  migrated k d dk ->
  nth_error migration_statements k = Some s ->
  Migration.exec s dk = (e, d') ->
  e = (if ddl_rejects k d then Some ErrDriver else None) /\ migrated (S k) d d'.
Proof.
  unfold migrated, Migration.exec, ddl_rejects. intros [Hj Hs] Hn E.
  injection E as <- <-. rewrite Hs, hd_skipn. split; [reflexivity|].
  cbn [Migration.journal Migration.script].
  rewrite Hj, (firstn_snoc k _ s Hn), app_assoc, tl_skipn. split; reflexivity.
Qed.

Ltac migrate_step d :=
  match goal with
  | H : migrated ?k d ?dk |- context [Migration.exec ?s ?dk] =>
      let e := fresh "e" in
      let d' := fresh "d" in
      let E := fresh "E" in
      let He := fresh "He" in
      let H' := fresh "H" in
      destruct (Migration.exec s dk) as [e d'] eqn:E;
      destruct (exec_step k d dk s e d' H eq_refl E) as [He H'];
      clear H E; subst e;
      try match goal with
          | |- context [if ddl_rejects ?n d then _ else _] =>
              destruct (ddl_rejects n d) eqn:?
          end;
      cbv iota
  end.

(** X1.  [MigrateDatabase] returns nil exactly when the six statements it
    checks (the last of each group) are accepted: a rejection of any of
    the other fourteen statements is overwritten by the next assignment
    to [err] and never reported. *)
Theorem MigrateDatabase_reports_checked_only :
  forall d : Migration.Schema,
    fst (Migration.MigrateDatabase d) = None
    <-> forallb (fun k => negb (ddl_rejects k d)) checked_positions = true.
Proof.
  intros d. unfold checked_positions. cbn [forallb].
  assert (H0 : migrated 0 d d).
  { unfold migrated. cbn [firstn skipn]. rewrite app_nil_r. split; reflexivity. }
  unfold Migration.MigrateDatabase.
  repeat migrate_step d;
    repeat match goal with H : ddl_rejects _ d = _ |- _ => rewrite H end;
    cbn [fst errors.Wrap negb andb]; split; intros HH; try reflexivity; discriminate HH.
Qed.

(** X2.  The statements go out in the order of the Go file, and the first
    rejected checked statement is the last one sent: in that case an
    error wrapping the cause comes back and the later groups are not
    migrated. *)
Theorem MigrateDatabase_stops_at_first_checked_failure :
  forall d : Migration.Schema,
    migrated (statements_sent d) d (snd (Migration.MigrateDatabase d))
    /\ (statements_sent d < 20 ->
        exists e, fst (Migration.MigrateDatabase d) = Some e
                  /\ errors.Cause e = ErrDriver)%nat.
Proof.
  intros d.
  assert (H0 : migrated 0 d d).
  { unfold migrated. cbn [firstn skipn]. rewrite app_nil_r. split; reflexivity. }
  unfold Migration.MigrateDatabase.
  repeat migrate_step d;
    unfold statements_sent, checked_positions; cbn [find];
    repeat match goal with H : ddl_rejects _ d = _ |- _ => rewrite H end;
    cbv iota beta; cbn [fst snd errors.Wrap];
    (split; [assumption|]); intros Hlt; try (exfalso; lia);
    eexists; split; reflexivity.
Qed.

Lemma MigrateDatabase_stops_at_first_checked_failure_witness :
  let d := Migration.mkSchema [true; false; false; false; true; false; true] [] in
  statements_sent d = 7%nat
  /\ fst (Migration.MigrateDatabase d)
     = Some (WithMessage "Unable to migrate flight base-entities" ErrDriver)
  /\ Migration.journal (snd (Migration.MigrateDatabase d))
     = firstn 7 migration_statements.
Proof.
  intros d.
  destruct (MigrateDatabase_stops_at_first_checked_failure d) as ((Hj & _) & _).
  split; [reflexivity|]. split; [reflexivity|]. exact Hj.
Defined.

(** ** The user queries *)

Lemma filter_all {A : Type} (l : list A) : filter (fun _ => true) l = l.
Proof. induction l as [|a l IH]; [reflexivity|]. simpl. rewrite IH. reflexivity. Qed.

Lemma wrap_int_small (z : Z) :
  (- 2 ^ 63 <= z < 2 ^ 63)%Z -> wrap_int z = z.
Proof.
  intros H. unfold wrap_int. rewrite Z.mod_small; lia.
Qed.

(** X3.  [GetAllUsers] never returns an error and never writes: when the
    store rejects the query, the caller receives the mapping of an empty
    result together with a nil error. *)
Theorem GetAllUsers_never_fails :
  forall (demapUsers : list DbUser.t -> list common.User.t) (limit page : Z) (d : DB),
    snd (fst (GetAllUsers demapUsers limit page d)) = None
    /\ same_tables d (snd (GetAllUsers demapUsers limit page d))
    /\ (rejects 0 d = true ->
        fst (fst (GetAllUsers demapUsers limit page d)) = demapUsers []).
Proof.
  intros demapUsers limit page d.
  unfold GetAllUsers, gormPage.Find, bind, ret. rewrite rejects_0.
  cbn [issue fst snd]. destruct (hd false (script d)); cbn [fst snd].
  - repeat split.
  - repeat split. discriminate.
Qed.

Lemma GetAllUsers_never_fails_witness :
  let d := mkDB [] [] [] [DbUser.mk 1 "ada"] [] [true] [] 0 in
  rejects 0 d = true
  /\ fst (GetAllUsers (map demapUserPlain) 10 1 d) = ([], None).
Proof.
  intros d.
  destruct (GetAllUsers_never_fails (map demapUserPlain) 10 1 d) as (He & _ & Hl).
  split; [reflexivity|].
  rewrite (surjective_pairing (fst (GetAllUsers (map demapUserPlain) 10 1 d))).
  rewrite He, (Hl eq_refl). reflexivity.
Defined.

(** X4.  Paging: for a limit that is not negative and a page from 1 on
    (the offset staying within the range of [int]), an accepted query
    yields the users at positions [(page - 1) * limit] up to
    [page * limit - 1] of the table, so at most [limit] of them. *)
Theorem GetAllUsers_page :
  forall (demapUsers : list DbUser.t -> list common.User.t) (limit page : Z) (d : DB),
    (0 <= limit)%Z -> (1 <= page < 2 ^ 63)%Z -> ((page - 1) * limit < 2 ^ 63)%Z ->
    rejects 0 d = false ->
    let shown := firstn (Z.to_nat limit)
                        (skipn (Z.to_nat ((page - 1) * limit)) (users d)) in
    fst (fst (GetAllUsers demapUsers limit page d)) = demapUsers shown
    /\ (List.length shown <= Z.to_nat limit)%nat.
Proof.
  intros demapUsers limit page d Hl Hp Hr R0 shown. subst shown.
  split; [|apply firstn_le_length].
  unfold GetAllUsers, gormPage.Find, bind, ret.
  rewrite rejects_0 in R0. cbn [issue fst snd]. rewrite R0. cbn [fst snd].
  rewrite (wrap_int_small (page - 1)) by lia.
  rewrite (wrap_int_small ((page - 1) * limit)) by nia.
  assert (H1 : (0 <=? limit)%Z = true) by (apply Z.leb_le; lia).
  assert (H2 : (0 <=? (page - 1) * limit)%Z = true) by (apply Z.leb_le; nia).
  rewrite H1, H2.
  cbn [rows live Model_DbUser users]. rewrite filter_all. reflexivity.
Qed.

Lemma GetAllUsers_page_witness :
  let d := mkDB [] [] []
             [DbUser.mk 1 "ada"; DbUser.mk 2 "bo"; DbUser.mk 3 "cy";
              DbUser.mk 4 "di"; DbUser.mk 5 "ed"] [] [] [] 0 in
  map common.User.Profile (fst (fst (GetAllUsers (map demapUserPlain) 2 2 d)))
  = ["cy"; "di"].
Proof.
  intros d.
  assert (H2 : (1 <= 2 < 2 ^ 63)%Z) by lia.
  destruct (GetAllUsers_page (map demapUserPlain) 2 2 d
              Z.le_0_2 H2 eq_refl eq_refl) as [H _].
  rewrite H. reflexivity.
Defined.

Lemma filter_none {A : Type} (f : A -> bool) (l : list A) :
  (forall a, In a l -> f a = false) -> filter f l = [].
Proof.
  induction l as [|a l IH]; intros H; [reflexivity|].
  simpl. rewrite (H a (or_introl eq_refl)). apply IH.
  intros b Hb. apply H. right. exact Hb.
Qed.

(** A successful insert of a user: the row appended, under a key no
    other row carries. *)
Lemma Create_user_success (u : DbUser.t) (d : DB) :
  snd (fst (gorm.Create u d)) = None ->
  let created := fst (fst (gorm.Create u d)) in
  rejects 0 d = false
  /\ snd (gorm.Create u d)
     = put_rows (users d ++ [created]) (advance (INSERT db_users) d)
  /\ ~ In (DbUser.ID created) (map DbUser.ID (users d))
  /\ DbUser.Profile created = DbUser.Profile u.
Proof.
  destruct d as [cps cos ls us crs sc j t].
  unfold gorm.Create, bind, ret. rewrite rejects_0. cbn [issue fst snd script].
  destruct (hd false sc); cbn [fst snd]; [discriminate|].
  cbn [pk rows Model_DbUser users].
  destruct (DbUser.ID u =? 0) eqn:E0; cbn [fst snd].
  - intros _. repeat split.
    intros Hin. apply next_key_above in Hin. cbn in Hin. lia.
  - destruct (existsb (N.eqb (DbUser.ID u)) (map DbUser.ID us)) eqn:Ex;
      cbn [fst snd]; [discriminate|].
    intros _. repeat split.
    intros Hin. assert (Hex : existsb (N.eqb (DbUser.ID u)) (map DbUser.ID us) = true).
    { apply existsb_exists. exists (DbUser.ID u). split; [exact Hin|apply N.eqb_refl]. }
    rewrite Hex in Ex. discriminate Ex.
Qed.

Lemma Create_credentials_frame (c : DbCredentials.t) (d : DB) :
  let d' := snd (gorm.Create c d) in
  users d' = users d /\ countryparts d' = countryparts d
  /\ coordinates d' = coordinates d /\ locations d' = locations d
  /\ sends d d' [INSERT db_credentials].
Proof.
  destruct d as [cps cos ls us crs sc j t].
  unfold gorm.Create, bind, issue, ret, sends. simpl.
  destruct (hd false sc); simpl; [|destruct (DbCredentials.ID c =? 0); simpl;
                                    [|destruct (existsb _ _); simpl]];
    repeat split.
Qed.

Lemma CreateUser_eq
      (mapUser : common.User.t -> DbUser.t * DbCredentials.t)
      (demapUser : DbUser.t -> common.User.t) (user : common.User.t) (d : DB) :
  snd (fst (gorm.Create (fst (mapUser user)) d)) = None ->
  CreateUser mapUser demapUser user d =
  ((demapUser (fst (fst (gorm.Create (fst (mapUser user)) d))), None),
   snd (gorm.Create
          (DbCredentials.withUserID
             (DbUser.ID (fst (fst (gorm.Create (fst (mapUser user)) d))))
             (snd (mapUser user)))
          (snd (gorm.Create (fst (mapUser user)) d)))).
Proof.
  intros Hok. unfold CreateUser.
  destruct (mapUser user) as [mappedUser mappedCreds]. cbn [fst snd] in *.
  unfold bind.
  destruct (gorm.Create mappedUser d) as [[u e] dd]. cbn [fst snd] in *. subst e.
  destruct (gorm.Create (DbCredentials.withUserID (DbUser.ID u) mappedCreds) dd)
    as [[c' e'] d2].
  destruct e'; reflexivity.
Qed.

Lemma GetUser_eq (demapUser : DbUser.t -> common.User.t) (ID : N) (d : DB) :
  GetUser demapUser ID d =
  (if rejects 0 d
   then (demapUser (DbUser.mk ID ""), Some (WithMessage "Unable to get user" ErrDriver))
   else match first_by_pk (filter (fun r => DbUser.ID r =? ID) (users d)) with
        | Some r => (demapUser (DbUser.withID ID r), None)
        | None => (demapUser (DbUser.mk ID ""),
                   Some (WithMessage "Unable to get user" ErrRecordNotFound))
        end,
   advance (SELECT db_users) d).
Proof.
  unfold GetUser, gorm.FirstByID, bind, ret. rewrite First_eq. cbv zeta.
  cbn [rows live pk Model_DbUser table_of users advance issue snd fst].
  destruct (rejects 0 d); [reflexivity|].
  change (fun r : DbUser.t => true && (DbUser.ID r =? ID))
    with (fun r : DbUser.t => DbUser.ID r =? ID).
  destruct (first_by_pk _); reflexivity.
Qed.

(** X5.  Round trip: after a [CreateUser] whose base insert succeeded,
    [GetUser] on the identifier of the created user returns what
    [CreateUser] returned, the look-up being accepted. *)
Theorem GetUser_after_CreateUser :
  forall (mapUser : common.User.t -> DbUser.t * DbCredentials.t)
         (demapUser : DbUser.t -> common.User.t) (user : common.User.t) (d : DB),
    let created := fst (fst (gorm.Create (fst (mapUser user)) d)) in
    snd (fst (gorm.Create (fst (mapUser user)) d)) = None ->
    rejects 2 d = false ->
    fst (GetUser demapUser (DbUser.ID created)
                 (snd (CreateUser mapUser demapUser user d)))
    = fst (CreateUser mapUser demapUser user d).
Proof.
  intros mapUser demapUser user d created Hok R2.
  rewrite (CreateUser_eq mapUser demapUser user d Hok). fold created. cbn [fst snd].
  destruct (Create_user_success _ d Hok) as (R0 & Hd1 & Hfresh & _). fold created in Hd1, Hfresh.
  set (d1 := snd (gorm.Create (fst (mapUser user)) d)) in *.
  set (creds := DbCredentials.withUserID (DbUser.ID created) (snd (mapUser user))).
  destruct (Create_credentials_frame creds d1) as (Hu & _ & _ & _ & Hs).
  set (d2 := snd (gorm.Create creds d1)) in *.
  rewrite GetUser_eq. cbn [fst].
  assert (R0' : rejects 0 d2 = false).
  { destruct Hs as (_ & Hsc & _). unfold rejects in *. rewrite Hsc, Hd1.
    cbn [script put_rows Model_DbUser advance issue snd].
    destruct (script d) as [|b0 [|b1 [|b2 sc]]]; cbn in *; auto. }
  rewrite R0', Hu, Hd1. cbn [users put_rows Model_DbUser].
  rewrite filter_app, filter_none.
  - cbn [filter app]. rewrite N.eqb_refl. cbn [first_by_pk].
    destruct created; reflexivity.
  - intros r Hr. apply N.eqb_neq. intros E. apply Hfresh. rewrite <- E.
    apply in_map. exact Hr.
Qed.

Lemma GetUser_after_CreateUser_witness :
  let d := storeWith [] [false; true; false] in
  fst (GetUser demapUserPlain 1 (snd (CreateUser mapUserPlain demapUserPlain ada d)))
  = (common.User.mk 1 "ada" None None, None).
Proof.
  intros d.
  exact (GetUser_after_CreateUser mapUserPlain demapUserPlain ada d eq_refl eq_refl).
Defined.

(** X6.  [GetUser] on an identifier no user row carries: the look-up
    being accepted, the caller receives a NotFoundError together with
    the mapping of an empty record that carries the identifier asked
    for; nothing is written. *)
Theorem GetUser_absent :
  forall (demapUser : DbUser.t -> common.User.t) (ID : N) (d : DB),
    ~ In ID (map DbUser.ID (users d)) ->
    rejects 0 d = false ->
    fst (GetUser demapUser ID d)
    = (demapUser (DbUser.mk ID ""),
       Some (WithMessage "Unable to get user" ErrRecordNotFound))
    /\ NotFoundError (WithMessage "Unable to get user" ErrRecordNotFound)
    /\ same_tables d (snd (GetUser demapUser ID d)).
Proof.
  intros demapUser ID d Habs R0. rewrite GetUser_eq, R0. cbn [fst snd].
  rewrite filter_none.
  - repeat split.
  - intros r Hr. apply N.eqb_neq. intros E. apply Habs. rewrite <- E.
    apply in_map. exact Hr.
Qed.

Lemma GetUser_absent_witness :
  fst (GetUser demapUserPlain 7 (mkDB [] [] [] [DbUser.mk 1 "ada"] [] [] [] 0))
  = (common.User.mk 7 "" None None,
     Some (WithMessage "Unable to get user" ErrRecordNotFound)).
Proof.
  refine (proj1 (GetUser_absent demapUserPlain 7
                   (mkDB [] [] [] [DbUser.mk 1 "ada"] [] [] [] 0) _ eq_refl)).
  simpl. intros [H|H]; [discriminate H|exact H].
Defined.

(** X7.  When both inserts of [CreateUser] succeed, the users table gains
    the created user and the credentials table gains one row that
    carries the identifier of that user and the hash and salt [mapUser]
    produced. *)
Theorem CreateUser_links_credentials :
  forall (mapUser : common.User.t -> DbUser.t * DbCredentials.t)
         (demapUser : DbUser.t -> common.User.t) (user : common.User.t) (d : DB),
    let created := fst (fst (gorm.Create (fst (mapUser user)) d)) in
    let d1 := snd (gorm.Create (fst (mapUser user)) d) in
    let creds := DbCredentials.withUserID (DbUser.ID created) (snd (mapUser user)) in
    let d' := snd (CreateUser mapUser demapUser user d) in
    snd (fst (gorm.Create (fst (mapUser user)) d)) = None ->
    snd (fst (gorm.Create creds d1)) = None ->
    users d' = (users d ++ [created])%list
    /\ exists row,
         credentials d' = (credentials d ++ [row])%list
         /\ DbCredentials.UserID row = DbUser.ID created
         /\ DbCredentials.PasswordHash row = DbCredentials.PasswordHash (snd (mapUser user))
         /\ DbCredentials.PasswordSalt row = DbCredentials.PasswordSalt (snd (mapUser user)).
Proof.
  intros mapUser demapUser user d created d1 creds d' Hok Hok2. subst d'.
  rewrite (CreateUser_eq mapUser demapUser user d Hok). cbn [snd].
  fold created. fold d1. fold creds.
  destruct (Create_user_success _ d Hok) as (_ & Hd1 & _ & _).
  fold created in Hd1. fold d1 in Hd1.
  destruct (Create_credentials_frame creds d1) as (Hu & _).
  split; [rewrite Hu, Hd1; reflexivity|].
  assert (Hcr : credentials d1 = credentials d) by (rewrite Hd1; reflexivity).
  rewrite <- Hcr. revert Hok2. generalize d1 as dd. intros [cps cos ls us crs sc j t].
  unfold gorm.Create, bind, issue, ret. cbn [fst snd script hd].
  destruct (hd false sc); cbn [fst snd]; [discriminate|].
  cbn [pk rows Model_DbCredentials credentials].
  destruct (DbCredentials.ID creds =? 0); cbn [fst snd].
  - intros _. eexists. split; [reflexivity|]. repeat split.
  - destruct (existsb _ _); cbn [fst snd]; [discriminate|].
    intros _. eexists. split; [reflexivity|]. repeat split.
Qed.

Lemma CreateUser_links_credentials_witness :
  let d' := snd (CreateUser mapUserPlain demapUserPlain ada (storeWith [] [])) in
  users d' = [DbUser.mk 1 "ada"]
  /\ exists row,
       credentials d' = [row]
       /\ DbCredentials.UserID row = 1
       /\ DbCredentials.PasswordHash row = Some [1; 2; 3]
       /\ DbCredentials.PasswordSalt row = Some [4; 5; 6].
Proof.
  exact (CreateUser_links_credentials mapUserPlain demapUserPlain ada (storeWith [] [])
           eq_refl eq_refl).
Defined.

(** X8.  When the insert of the base user fails, [CreateUser] hands back
    its input with that error; no credentials insert is attempted and
    no table changes. *)
Theorem CreateUser_base_failure :
  forall (mapUser : common.User.t -> DbUser.t * DbCredentials.t)
         (demapUser : DbUser.t -> common.User.t) (user : common.User.t) (d : DB)
         (e : error),
    snd (fst (gorm.Create (fst (mapUser user)) d)) = Some e ->
    fst (CreateUser mapUser demapUser user d) = (user, Some e)
    /\ same_tables d (snd (CreateUser mapUser demapUser user d))
    /\ journal (snd (CreateUser mapUser demapUser user d))
       = (journal d ++ [INSERT db_users])%list.
Proof.
  intros mapUser demapUser user d e Hfail.
  assert (E : CreateUser mapUser demapUser user d
              = ((user, Some e), snd (gorm.Create (fst (mapUser user)) d))).
  { unfold CreateUser. destruct (mapUser user) as [mappedUser mappedCreds].
    cbn [fst snd] in *. unfold bind at 1.
    destruct (gorm.Create mappedUser d) as [[u e'] d1]. cbn [fst snd] in *. subst e'.
    reflexivity. }
  rewrite E. cbn [fst snd]. split; [reflexivity|].
  assert (Hne : snd (fst (gorm.Create (fst (mapUser user)) d)) <> None)
    by (rewrite Hfail; discriminate).
  revert Hne. generalize (fst (mapUser user)) as mappedUser. clear.
  intros mappedUser. destruct d as [cps cos ls us crs sc j t].
  unfold gorm.Create, bind, issue, ret, same_tables. simpl.
  destruct (hd false sc); simpl; [intros _; repeat split|].
  destruct (DbUser.ID mappedUser =? 0); simpl; [intros H; contradiction H; reflexivity|].
  destruct (existsb _ _); simpl; [intros _; repeat split|].
  intros H; contradiction H; reflexivity.
Qed.

Lemma CreateUser_base_failure_witness :
  fst (CreateUser mapUserPlain demapUserPlain ada (storeWith [] [true]))
  = (ada, Some ErrDriver)
  /\ same_tables (storeWith [] [true])
       (snd (CreateUser mapUserPlain demapUserPlain ada (storeWith [] [true]))).
Proof.
  destruct (CreateUser_base_failure mapUserPlain demapUserPlain ada (storeWith [] [true])
              ErrDriver eq_refl) as (H1 & H2 & _).
  split; [exact H1|exact H2].
Defined.

Lemma Save_user_frame (u : DbUser.t) (d : DB) :
  let d' := snd (gorm.Save u d) in
  credentials d' = credentials d /\ countryparts d' = countryparts d
  /\ coordinates d' = coordinates d /\ locations d' = locations d.
Proof.
  destruct d as [cps cos ls us crs sc j t].
  unfold gorm.Save, gorm.Create, bind, issue, ret. simpl.
  destruct (DbUser.ID u =? 0); simpl.
  - destruct (hd false sc); simpl; repeat split.
  - destruct (hd false sc); simpl; [repeat split|].
    destruct (existsb _ us); simpl; [repeat split|].
    destruct (hd false (tl sc)); simpl; [repeat split|].
    destruct (hd false (tl (tl sc))); simpl; [repeat split|].
    destruct (existsb _ _); simpl; repeat split.
Qed.

Lemma UpdateUser_without_secrets
      (mapUser : common.User.t -> DbUser.t * DbCredentials.t)
      (demapUser : DbUser.t -> common.User.t) (ID : N) (user : common.User.t) (d : DB) :
  common.User.PasswordSalt user = None \/ common.User.PasswordHash user = None ->
  UpdateUser mapUser demapUser ID user d
  = save_user demapUser (DbUser.withID ID (fst (mapUser user))) d.
Proof.
  intros H. unfold UpdateUser, save_user.
  destruct (mapUser user) as [dbUser c]. cbn [fst].
  destruct H as [-> | ->]; [reflexivity|].
  destruct (common.User.PasswordSalt user); reflexivity.
Qed.

(** X9.  Unless the input carries both a salt and a hash, [UpdateUser]
    leaves the credentials alone, and it returns the mapping of the
    record built from its input, not of what is stored. *)
Theorem UpdateUser_without_secrets_keeps_credentials :
  forall (mapUser : common.User.t -> DbUser.t * DbCredentials.t)
         (demapUser : DbUser.t -> common.User.t) (ID : N) (user : common.User.t) (d : DB),
    common.User.PasswordSalt user = None \/ common.User.PasswordHash user = None ->
    credentials (snd (UpdateUser mapUser demapUser ID user d)) = credentials d
    /\ fst (fst (UpdateUser mapUser demapUser ID user d))
       = demapUser (DbUser.withID ID (fst (mapUser user))).
Proof.
  intros mapUser demapUser ID user d H.
  rewrite (UpdateUser_without_secrets mapUser demapUser ID user d H).
  unfold save_user, bind.
  destruct (Save_user_frame (DbUser.withID ID (fst (mapUser user))) d) as (Hc & _).
  destruct (gorm.Save (DbUser.withID ID (fst (mapUser user))) d) as [[u e] d'].
  cbn [fst snd ret] in *. split; [exact Hc|reflexivity].
Qed.

Lemma UpdateUser_without_secrets_keeps_credentials_witness :
  credentials (snd (UpdateUser mapUserPlain demapUserPlain 1 bo (adaStore [])))
  = credentials (adaStore [])
  /\ fst (fst (UpdateUser mapUserPlain demapUserPlain 1 bo (adaStore [])))
     = common.User.mk 1 "bo" None None.
Proof.
  exact (UpdateUser_without_secrets_keeps_credentials mapUserPlain demapUserPlain 1 bo
           (adaStore []) (or_introl eq_refl)).
Defined.

(** What [UpdateUser] does with a salt and a hash, up to the save of the
    credentials. *)
Lemma UpdateUser_with_secrets
      (mapUser : common.User.t -> DbUser.t * DbCredentials.t)
      (demapUser : DbUser.t -> common.User.t) (ID : N) (user : common.User.t) (d : DB)
      (salt hash : list N) :
  common.User.PasswordSalt user = Some salt ->
  common.User.PasswordHash user = Some hash ->
  UpdateUser mapUser demapUser ID user d =
  let d1 := advance (SELECT db_credentials) d in
  if rejects 0 d
  then ((user, Some (WithMessage "Unable to update password details" ErrDriver)), d1)
  else match credentials_of ID d with
       | None =>
           ((user, Some (WithMessage "Unable to update password details"
                                     ErrRecordNotFound)), d1)
       | Some c =>
           match snd (fst (gorm.Save (with_secrets hash salt c) d1)) with
           | Some e =>
               ((user, Some (WithMessage "Unable to update password details" e)),
                snd (gorm.Save (with_secrets hash salt c) d1))
           | None =>
               save_user demapUser (DbUser.withID ID (fst (mapUser user)))
                         (snd (gorm.Save (with_secrets hash salt c) d1))
           end
       end.
Proof.
  intros Hs Hh. unfold UpdateUser, save_user.
  destruct (mapUser user) as [dbUser c0]. cbn [fst]. rewrite Hs, Hh.
  unfold bind at 1. rewrite First_eq. cbv zeta.
  change (@table_of DbCredentials.t _) with db_credentials.
  change (first_by_pk
            (filter (fun r : DbCredentials.t => live r && (DbCredentials.UserID r =? ID))
                    (rows (advance (SELECT db_credentials) d))))
    with (credentials_of ID d).
  destruct (rejects 0 d); [reflexivity|].
  destruct (credentials_of ID d) as [c|]; [|reflexivity].
  cbn [errors.Wrap DbCredentials.ID DbCredentials.UserID DbCredentials.PasswordHash
       DbCredentials.PasswordSalt].
  fold (with_secrets hash salt c). unfold bind at 1.
  destruct (gorm.Save (with_secrets hash salt c) (advance (SELECT db_credentials) d))
    as [[c' e] d2].
  cbn [fst snd]. destruct e; reflexivity.
Qed.

(** X10.  With a salt and a hash in the input but no credentials row for
    the identifier, [UpdateUser] fails with a NotFoundError under
    "Unable to update password details" and writes nothing: the user row
    is not updated either. *)
Theorem UpdateUser_without_credentials_row :
  forall (mapUser : common.User.t -> DbUser.t * DbCredentials.t)
         (demapUser : DbUser.t -> common.User.t) (ID : N) (user : common.User.t) (d : DB)
         (salt hash : list N),
    common.User.PasswordSalt user = Some salt ->
    common.User.PasswordHash user = Some hash ->
    credentials_of ID d = None ->
    rejects 0 d = false ->
    fst (UpdateUser mapUser demapUser ID user d)
    = (user, Some (WithMessage "Unable to update password details" ErrRecordNotFound))
    /\ same_tables d (snd (UpdateUser mapUser demapUser ID user d))
    /\ journal (snd (UpdateUser mapUser demapUser ID user d))
       = (journal d ++ [SELECT db_credentials])%list.
Proof.
  intros mapUser demapUser ID user d salt hash Hs Hh Hnone R0.
  rewrite (UpdateUser_with_secrets mapUser demapUser ID user d salt hash Hs Hh).
  cbv zeta. rewrite R0, Hnone. cbn [fst snd]. repeat split.
Qed.

Lemma UpdateUser_without_credentials_row_witness :
  fst (UpdateUser mapUserPlain demapUserPlain 5 adaNewPassword (adaStore []))
  = (adaNewPassword,
     Some (WithMessage "Unable to update password details" ErrRecordNotFound))
  /\ same_tables (adaStore [])
       (snd (UpdateUser mapUserPlain demapUserPlain 5 adaNewPassword (adaStore []))).
Proof.
  destruct (UpdateUser_without_credentials_row mapUserPlain demapUserPlain 5 adaNewPassword
              (adaStore []) [9; 9] [7; 7] eq_refl eq_refl eq_refl eq_refl) as (H1 & H2 & _).
  split; [exact H1|exact H2].
Defined.

Lemma Save_credentials_update (c : DbCredentials.t) (d : DB) :
  DbCredentials.ID c <> 0 ->
  existsb (fun r => DbCredentials.ID r =? DbCredentials.ID c) (credentials d) = true ->
  rejects 0 d = false ->
  gorm.Save c d =
  ((c, None),
   put_rows (map (fun r => if DbCredentials.ID r =? DbCredentials.ID c then c else r)
                 (credentials d))
            (advance (UPDATE db_credentials) d)).
Proof.
  intros Hk Hex R0. apply N.eqb_neq in Hk.
  unfold gorm.Save, bind, ret, advance. cbn [pk Model_DbCredentials]. rewrite Hk.
  rewrite rejects_0 in R0. cbn [issue fst snd]. rewrite R0.
  cbn [rows live columns Model_DbCredentials credentials].
  change (fun r : DbCredentials.t => true && (DbCredentials.ID r =? DbCredentials.ID c))
    with (fun r : DbCredentials.t => DbCredentials.ID r =? DbCredentials.ID c).
  rewrite Hex. reflexivity.
Qed.

(** X11.  With a salt and a hash in the input, [UpdateUser] writes them
    into the credentials row of the user before it saves the user: once
    the look-up and the save of the credentials are accepted, the new
    hash and salt are stored whatever happens to the save of the user,
    also when the call then returns an error. *)
Theorem UpdateUser_changes_password_first :
  forall (mapUser : common.User.t -> DbUser.t * DbCredentials.t)
         (demapUser : DbUser.t -> common.User.t) (ID : N) (user : common.User.t) (d : DB)
         (salt hash : list N) (c : DbCredentials.t),
    common.User.PasswordSalt user = Some salt ->
    common.User.PasswordHash user = Some hash ->
    credentials_of ID d = Some c ->
    DbCredentials.ID c <> 0 ->
    rejects 0 d = false -> rejects 1 d = false ->
    credentials (snd (UpdateUser mapUser demapUser ID user d))
    = map (fun r => if DbCredentials.ID r =? DbCredentials.ID c
                    then with_secrets hash salt c else r) (credentials d).
Proof.
  intros mapUser demapUser ID user d salt hash c Hs Hh Hc Hk R0 R1.
  rewrite (UpdateUser_with_secrets mapUser demapUser ID user d salt hash Hs Hh).
  cbv zeta. rewrite R0, Hc.
  assert (Hin : In c (credentials d)).
  { unfold credentials_of in Hc. apply first_by_pk_In, filter_In in Hc. tauto. }
  rewrite (Save_credentials_update (with_secrets hash salt c)
             (advance (SELECT db_credentials) d)).
  - cbn [fst snd]. unfold save_user, bind.
    match goal with
    | |- context [gorm.Save ?u ?dd] =>
        destruct (Save_user_frame u dd) as (Hcr & _);
        destruct (gorm.Save u dd) as [[u' e] d3]
    end.
    cbn [fst snd ret] in *. rewrite Hcr. reflexivity.
  - exact Hk.
  - apply existsb_exists. exists c. split; [exact Hin|]. apply N.eqb_refl.
  - rewrite rejects_advance. exact R1.
Qed.

Lemma UpdateUser_changes_password_first_witness :
  let r := UpdateUser mapUserPlain demapUserPlain 1 adaNewPassword
                      (adaStore [false; false; true]) in
  credentials (snd r) = [DbCredentials.mk 1 1 (Some [7; 7]) (Some [9; 9])]
  /\ snd (fst r) = Some (WithMessage "Unable to update a user" ErrDriver).
Proof.
  intros r. split; [|reflexivity].
  exact (UpdateUser_changes_password_first mapUserPlain demapUserPlain 1 adaNewPassword
           (adaStore [false; false; true]) [9; 9] [7; 7]
           (DbCredentials.mk 1 1 (Some [1; 2; 3]) (Some [4; 5; 6]))
           eq_refl eq_refl eq_refl (fun E : 1 = 0 => N.neq_succ_0 0 E) eq_refl eq_refl).
Defined.



(** ** Country parts and locations *)

Lemma Create_part_cases (part : DbCountryPart.t) (d : DB) :
  let r := gorm.Create part d in
  (snd (fst r) <> None /\ countryparts (snd r) = countryparts d)
  \/ (snd (fst r) = None
      /\ countryparts (snd r) = (countryparts d ++ [fst (fst r)])%list
      /\ DbCountryPart.ID (fst (fst r)) <> 0
      /\ same_triple part (fst (fst r)) = true
      /\ ~ In (DbCountryPart.ID (fst (fst r))) (map DbCountryPart.ID (countryparts d))).
Proof.
  destruct d as [cps cos ls us crs sc j t].
  unfold gorm.Create, bind, issue, ret. cbn [fst snd script].
  destruct (hd false sc); cbn [fst snd countryparts]; [left; split; [discriminate|reflexivity]|].
  cbn [pk rows with_pk columns Model_DbCountryPart countryparts].
  destruct (DbCountryPart.ID part =? 0) eqn:E0; cbn [fst snd countryparts].
  - right. split; [reflexivity|]. split; [reflexivity|].
    split; [apply next_key_nonzero|]. split; [apply same_triple_refl|].
    intros Hin. apply next_key_above in Hin. cbn in Hin. lia.
  - destruct (existsb (N.eqb (DbCountryPart.ID part)) (map DbCountryPart.ID cps)) eqn:Ex;
      cbn [fst snd countryparts]; [left; split; [discriminate|reflexivity]|].
    right. split; [reflexivity|]. split; [reflexivity|].
    split; [apply N.eqb_neq; exact E0|].
    split; [apply same_triple_key; reflexivity|].
    intros Hin.
    assert (Hex : existsb (N.eqb (DbCountryPart.ID part)) (map DbCountryPart.ID cps) = true).
    { apply existsb_exists. exists (DbCountryPart.ID part). split; [exact Hin|apply N.eqb_refl]. }
    rewrite Hex in Ex. discriminate Ex.
Qed.

(** The three outcomes of [resolveCountryPart]. *)
Lemma resolveCountryPart_cases (part : DbCountryPart.t) (d : DB) (id : N) (d' : DB) :
  resolveCountryPart part d = (id, d') ->
  (id = 0 /\ countryparts d' = countryparts d)
  \/ (exists row, In row (countryparts d) /\ id = DbCountryPart.ID row
                  /\ id <> 0 /\ same_triple part row = true
                  /\ countryparts d' = countryparts d)
  \/ (exists row, countryparts d' = (countryparts d ++ [row])%list
                  /\ id = DbCountryPart.ID row /\ id <> 0
                  /\ same_triple part row = true
                  /\ ~ In (DbCountryPart.ID row) (map DbCountryPart.ID (countryparts d))).
Proof.
  unfold resolveCountryPart.
  destruct (DbCountryPart.isEmpty part); cbn [negb];
    [intros [= <- <-]; left; split; reflexivity|].
  unfold bind at 1. rewrite getCountryPart_eq.
  set (d1 := advance (SELECT db_countryparts) d).
  assert (Hins :
    (bind (gorm.Create part)
       (fun x => let '(part0, err) := x in
                 match err with
                 | Some _ => ret 0
                 | None => ret (DbCountryPart.ID part0)
                 end)) d1 = (id, d') ->
    (id = 0 /\ countryparts d' = countryparts d)
    \/ (exists row, countryparts d' = (countryparts d ++ [row])%list
                    /\ id = DbCountryPart.ID row /\ id <> 0
                    /\ same_triple part row = true
                    /\ ~ In (DbCountryPart.ID row) (map DbCountryPart.ID (countryparts d)))).
  { unfold bind. pose proof (Create_part_cases part d1) as Hc. cbv zeta in Hc.
    destruct (gorm.Create part d1) as [[p e] d2]. cbn [fst snd] in Hc.
    change (countryparts d1) with (countryparts d) in Hc.
    destruct Hc as [[He Hrows] | (He & Hrows & Hk & Ht & Hfresh)].
    - destruct e as [e|]; [|contradiction He; reflexivity].
      intros [= <- <-]. left. split; [reflexivity|exact Hrows].
    - subst e. intros [= <- <-]. right. exists p. repeat split; assumption. }
  destruct (rejects 0 d).
  - change (0 =? 0) with true. cbv iota. intros E.
    destruct (Hins E) as [H|H]; [left; exact H|right; right; exact H].
  - destruct (first_by_pk (filter (same_triple part) (countryparts d))) as [row|] eqn:Ef.
    + destruct (DbCountryPart.ID row =? 0) eqn:Ek.
      * intros E. destruct (Hins E) as [H|H]; [left; exact H|right; right; exact H].
      * intros [= <- <-]. right. left. exists row.
        apply first_by_pk_In, filter_In in Ef. destruct Ef as [Hin Ht].
        apply N.eqb_neq in Ek. repeat split; assumption.
    + change (0 =? 0) with true. cbv iota. intros E.
      destruct (Hins E) as [H|H]; [left; exact H|right; right; exact H].
Qed.

(** X13.  A result of [resolveCountryPart] other than 0 is the
    identifier of a CountryPart row that is stored afterwards and whose
    triple matches the one asked for. *)
Theorem resolveCountryPart_sound :
  forall (part : DbCountryPart.t) (d : DB),
    fst (resolveCountryPart part d) <> 0 ->
    exists row,
      In row (countryparts (snd (resolveCountryPart part d)))
      /\ DbCountryPart.ID row = fst (resolveCountryPart part d)
      /\ same_triple part row = true.
Proof.
  intros part d Hnz.
  destruct (resolveCountryPart part d) as [id d'] eqn:E. cbn [fst snd] in *.
  destruct (resolveCountryPart_cases part d id d' E)
    as [[H0 _] | [(row & Hin & Hid & _ & Ht & Hrows) | (row & Hrows & Hid & _ & Ht & _)]].
  - contradiction.
  - exists row. rewrite Hrows. repeat split; [exact Hin|symmetry; exact Hid|exact Ht].
  - exists row. rewrite Hrows. repeat split; [|symmetry; exact Hid|exact Ht].
    apply in_or_app. right. left. reflexivity.
Qed.

Lemma resolveCountryPart_sound_witness :
  exists row,
    In row (countryparts (snd (resolveCountryPart osloPart (storeWith [bergenPart] []))))
    /\ DbCountryPart.ID row = fst (resolveCountryPart osloPart (storeWith [bergenPart] []))
    /\ same_triple osloPart row = true.
Proof.
  apply (resolveCountryPart_sound osloPart (storeWith [bergenPart] [])).
  simpl. discriminate.
Defined.

(** X14.  [resolveCountryPart] never removes or rewrites a CountryPart
    row: the rows stored before are still there, in place, followed by at
    most one new row; a new row carries a key that was not in use, and
    none is added when the result is 0. *)
Theorem resolveCountryPart_appends_only :
  forall (part : DbCountryPart.t) (d : DB),
    exists added,
      countryparts (snd (resolveCountryPart part d)) = (countryparts d ++ added)%list
      /\ (List.length added <= 1)%nat
      /\ (forall row, In row added ->
            ~ In (DbCountryPart.ID row) (map DbCountryPart.ID (countryparts d)))
      /\ (fst (resolveCountryPart part d) = 0 -> added = []).
Proof.
  intros part d.
  destruct (resolveCountryPart part d) as [id d'] eqn:E. cbn [fst snd] in *.
  destruct (resolveCountryPart_cases part d id d' E)
    as [[H0 Hrows] | [(row & _ & _ & Hnz & _ & Hrows) | (row & Hrows & _ & Hnz & _ & Hfresh)]].
  - exists []. rewrite Hrows, app_nil_r. repeat split; [simpl; lia|intros ? []].
  - exists []. rewrite Hrows, app_nil_r. repeat split; [simpl; lia|intros ? []].
  - exists [row]. rewrite Hrows. repeat split; [simpl; lia| |contradiction].
    intros r [<-|[]]. exact Hfresh.
Qed.

Lemma resolveCountryPart_appends_only_witness :
  exists added,
    countryparts (snd (resolveCountryPart osloPart (storeWith [bergenPart] [])))
    = ([bergenPart] ++ added)%list
    /\ List.length added = 1%nat.
Proof.
  destruct (resolveCountryPart_appends_only osloPart (storeWith [bergenPart] []))
    as (added & Hrows & _ & _ & _).
  exists added. split; [exact Hrows|].
  apply (f_equal (@List.length _)) in Hrows. rewrite length_app in Hrows.
  simpl in Hrows. lia.
Defined.

Lemma CreateLocation_rejected (location : common.Location.t) (d : DB) :
  rejects 0 d = true ->
  CreateLocation location d
  = ((location, Some (WithMessage "Unable to store coordinates" ErrDriver)),
     advance (INSERT db_coordinates) d).
Proof.
  intros R0. unfold CreateLocation. unfold bind at 1.
  assert (Hk : pk (DbLocation.Coordinates (mapLocation location)) = 0) by reflexivity.
  rewrite (Create_zero_key _ d Hk). cbv zeta. rewrite R0. reflexivity.
Qed.

Lemma CreateLocation_eq (location : common.Location.t) (d : DB) (pid : N) (d2 : DB) :
  rejects 0 d = false ->
  resolveCountryPart (part_of location) (after_coordinates location d) = (pid, d2) ->
  CreateLocation location d =
  if rejects 0 d2
  then ((location, Some (WithMessage "Could not create the location" ErrDriver)),
        advance (INSERT db_locations) d2)
  else ((demapLocation (created_location location d pid d2), None),
        put_rows (locations d2 ++ [DbLocation.columns (created_location location d pid d2)])
                 (advance (INSERT db_locations) d2)).
Proof.
  intros R0 Er. unfold CreateLocation. unfold bind at 1.
  assert (Hk : pk (DbLocation.Coordinates (mapLocation location)) = 0) by reflexivity.
  rewrite (Create_zero_key _ d Hk). cbv zeta. rewrite R0.
  unfold bind at 1.
  match goal with
  | |- context [resolveCountryPart ?p ?s] =>
      change (resolveCountryPart p s)
        with (resolveCountryPart (part_of location) (after_coordinates location d))
  end.
  rewrite Er. unfold bind at 1.
  match goal with
  | |- context [gorm.Create ?v d2] =>
      assert (Hk2 : pk v = 0) by reflexivity;
      rewrite (Create_zero_key v d2 Hk2)
  end.
  cbv zeta. destruct (rejects 0 d2); reflexivity.
Qed.



Lemma GetLocation_eq (ID : N) (d : DB) :
  GetLocation ID d =
  (if rejects 0 d
   then (demapLocation DbLocation.zero,
         Some (WithMessage "Unable to get location" ErrDriver))
   else match find_live ID d with
        | Some r => (demapLocation r, None)
        | None => (demapLocation DbLocation.zero,
                   Some (WithMessage "Unable to get location" ErrRecordNotFound))
        end,
   advance (SELECT db_locations) d).
Proof.
  unfold GetLocation, gorm.FirstByID, bind, ret. rewrite First_eq. cbv zeta.
  change (first_by_pk (filter (fun r : DbLocation.t => live r && (pk r =? ID))
                              (rows (advance (SELECT (@table_of DbLocation.t _)) d))))
    with (find_live ID d).
  destruct (rejects 0 d); [reflexivity|].
  destruct (find_live ID d); reflexivity.
Qed.



(** X17.  [GetLocation] writes nothing.  On an identifier without a live
    location row (never created, or soft-deleted) an accepted look-up
    yields a NotFoundError together with the mapping of an empty
    record. *)
Theorem GetLocation_absent :
  forall (ID : N) (d : DB),
    same_tables d (snd (GetLocation ID d))
    /\ (find_live ID d = None -> rejects 0 d = false ->
        fst (GetLocation ID d)
        = (demapLocation DbLocation.zero,
           Some (WithMessage "Unable to get location" ErrRecordNotFound))).
Proof.
  intros ID d. rewrite GetLocation_eq. cbn [fst snd]. split; [repeat split|].
  intros -> ->. reflexivity.
Qed.

Lemma GetLocation_absent_witness :
  fst (GetLocation 2 (snd (DeleteLocation 2 threeLocations)))
  = (demapLocation DbLocation.zero,
     Some (WithMessage "Unable to get location" ErrRecordNotFound)).
Proof.
  exact (proj2 (GetLocation_absent 2 (snd (DeleteLocation 2 threeLocations)))
               eq_refl eq_refl).
Defined.

(** ** Deleting, continued *)

Lemma DeleteLocation_eq (ID : N) (d : DB) :
  DeleteLocation ID d =
  let d1 := advance (SELECT db_locations) d in
  if rejects 0 d
  then (Some (WithMessage "Cannot delete a user we cannot find"
                          (WithMessage "Unable to get location" ErrDriver)), d1)
  else match find_live ID d with
       | None =>
           (Some (WithMessage "Cannot delete a user we cannot find"
                              (WithMessage "Unable to get location" ErrRecordNotFound)),
            d1)
       | Some _ =>
           if rejects 1 d
           then (Some ErrDriver, advance (UPDATE db_locations) d1)
           else (None,
                 put_rows (soft_deleted ID (now d) (locations d))
                          (advance (UPDATE db_locations) d1))
       end.
Proof.
  unfold DeleteLocation, gorm.FirstByID. unfold bind at 1. rewrite First_eq. cbv zeta.
  change (first_by_pk (filter (fun r : DbLocation.t => live r && (pk r =? ID))
                              (rows (advance (SELECT (@table_of DbLocation.t _)) d))))
    with (find_live ID d).
  change (@table_of DbLocation.t _) with db_locations.
  destruct (rejects 0 d); [reflexivity|].
  destruct (find_live ID d) as [l|]; [|reflexivity].
  cbn [errors.Wrap]. unfold gorm.Delete, bind, ret.
  rewrite <- (rejects_advance 0 (SELECT db_locations) d), rejects_0.
  cbn [issue fst snd]. destruct (hd false _); reflexivity.
Qed.

(** X18.  [DeleteLocation] removes no row and touches neither the
    Coordinates nor the CountryPart rows: whatever the outcome, every
    location row keeps its identifier, name and references (only the
    deletion marker may change), and the Coordinates row of a deleted
    location stays stored. *)
Theorem DeleteLocation_keeps_rows :
  forall (ID : N) (d : DB),
    let d' := snd (DeleteLocation ID d) in
    map kept_columns (locations d') = map kept_columns (locations d)
    /\ coordinates d' = coordinates d
    /\ countryparts d' = countryparts d
    /\ (references_resolve d -> references_resolve d').
Proof.
  intros ID d d'. subst d'. rewrite DeleteLocation_eq. cbv zeta.
  assert (Hm : map kept_columns (soft_deleted ID (now d) (locations d))
               = map kept_columns (locations d)).
  { unfold soft_deleted. rewrite map_map. apply map_ext. intros r.
    destruct (live r && _); reflexivity. }
  assert (Hr : forall dd, map kept_columns (locations dd) = map kept_columns (locations d) ->
                          coordinates dd = coordinates d ->
                          countryparts dd = countryparts d ->
                          references_resolve d -> references_resolve dd).
  { intros dd Hk Hco Hcp Hinv l Hl. rewrite Hco, Hcp.
    apply (in_map kept_columns) in Hl. rewrite Hk in Hl.
    apply in_map_iff in Hl. destruct Hl as (l0 & E & Hl0).
    destruct (Hinv l0 Hl0) as [H1 H2]. unfold kept_columns in E.
    injection E as _ _ E1 E2. rewrite <- E1, <- E2. split; assumption. }
  destruct (rejects 0 d); [|destruct (find_live ID d); [destruct (rejects 1 d)|]];
    cbn [snd]; (split; [try reflexivity; exact Hm|]);
    (split; [reflexivity|]); (split; [reflexivity|]);
    apply Hr; try reflexivity; exact Hm.
Qed.

Lemma DeleteLocation_keeps_rows_witness :
  let d := snd (CreateLocation osloVest emptyDB) in
  let d' := snd (DeleteLocation 1 d) in
  map kept_columns (locations d') = map kept_columns (locations d)
  /\ coordinates d' = coordinates d
  /\ references_resolve d'.
Proof.
  intros d d'.
  destruct (DeleteLocation_keeps_rows 1 d) as (H1 & H2 & _ & H4).
  split; [exact H1|]. split; [exact H2|]. apply H4.
  intros l [<-|[]].
  split; [left; reflexivity|right; left; reflexivity].
Defined.

(** X19.  A second [DeleteLocation] on the same identifier finds no live
    row: it returns a NotFoundError and changes no table. *)
Theorem DeleteLocation_twice :
  forall (ID : N) (d : DB) (l : DbLocation.t),
    find_live ID d = Some l ->
    calm 3 d = true ->
    let d' := snd (DeleteLocation ID d) in
    fst (DeleteLocation ID d) = None
    /\ (exists e, fst (DeleteLocation ID d') = Some e /\ NotFoundError e)
    /\ same_tables d' (snd (DeleteLocation ID d')).
Proof.
  intros ID d l Hl Hcalm d'. subst d'.
  assert (R0 : rejects 0 d = false) by (apply (calm_rejects 3); [exact Hcalm|lia]).
  assert (R1 : rejects 1 d = false) by (apply (calm_rejects 3); [exact Hcalm|lia]).
  assert (R2 : rejects 2 d = false) by (apply (calm_rejects 3); [exact Hcalm|lia]).
  rewrite (DeleteLocation_eq ID d). cbv zeta. rewrite R0, Hl, R1. cbn [fst snd].
  split; [reflexivity|].
  set (d' := put_rows _ _).
  assert (Hnone : find_live ID d' = None).
  { unfold find_live. subst d'. cbn [locations put_rows Model_DbLocation].
    rewrite soft_deleted_none_live. reflexivity. }
  assert (R0' : rejects 0 d' = false).
  { subst d'. cbn [put_rows Model_DbLocation]. unfold rejects in *.
    cbn [script advance issue snd].
    destruct (script d) as [|b0 [|b1 [|b2 sc]]]; cbn in *; auto. }
  rewrite (DeleteLocation_eq ID d'). cbv zeta. rewrite R0', Hnone. cbn [fst snd].
  split; [eexists; split; reflexivity|repeat split].
Qed.

Lemma DeleteLocation_twice_witness :
  fst (DeleteLocation 2 threeLocations) = None
  /\ exists e, fst (DeleteLocation 2 (snd (DeleteLocation 2 threeLocations))) = Some e
               /\ NotFoundError e.
Proof.
  destruct (DeleteLocation_twice 2 threeLocations
              (DbLocation.mk 2 None "Oslofjorden" DbCoordinates.zero 2 DbCountryPart.zero 1)
              eq_refl eq_refl) as (H1 & H2 & _).
  split; [exact H1|exact H2].
Defined.

(** ** Updating, continued *)

Lemma UpdateLocation_eq (ID : N) (location : common.Location.t) (d : DB)
      (pid : N) (d2 : DB) :
  resolveCountryPart (part_of location) (advance (SELECT db_locations) d) = (pid, d2) ->
  UpdateLocation ID location d =
  let d3 := advance (SELECT db_coordinates) d2 in
  let saved := DbLocation.withCountrypartReferer pid (looked_up ID d) in
  if rejects 0 d2 then ((location, Some ErrDriver), d3)
  else match first_by_pk
               (filter (fun c => DbCoordinates.ID c
                                 =? DbLocation.CoordinatesReferer (looked_up ID d))
                       (coordinates d2)) with
       | None => ((location, Some ErrRecordNotFound), d3)
       | Some _ =>
           ((demapLocation saved,
             errors.Wrap (snd (fst (gorm.Save saved d3))) "Unable to update a user"),
            snd (gorm.Save saved d3))
       end.
Proof.
  intros Er. unfold UpdateLocation, gorm.FirstByID, gorm.Related. unfold bind at 1.
  rewrite First_eq. cbv zeta.
  change (@table_of DbLocation.t _) with db_locations.
  change (first_by_pk (filter (fun r : DbLocation.t => live r && (pk r =? ID))
                              (rows (advance (SELECT db_locations) d))))
    with (find_live ID d).
  change (DbCountryPart.mk 0 (common.Location.AreaName location)
            (common.Location.PostalCode location)
            (common.Location.CountryPart location)) with (part_of location).
  unfold looked_up.
  destruct (rejects 0 d); [|destruct (find_live ID d) as [found|]];
    (unfold bind at 1; rewrite Er; unfold bind at 1;
     rewrite First_eq; cbv zeta;
     change (@table_of DbCoordinates.t _) with db_coordinates;
     change (rows (advance (SELECT db_coordinates) d2)) with (coordinates d2);
     match goal with
     | |- context [filter ?f (coordinates d2)] =>
         match goal with
         | |- context [filter ?g (coordinates d2)] =>
             tryif constr_eq f g then fail
             else change f with g
         end
     end;
     destruct (rejects 0 d2); [reflexivity|];
     destruct (first_by_pk _); [|reflexivity];
     unfold bind, ret;
     match goal with
     | |- context [gorm.Save ?v ?dd] => destruct (gorm.Save v dd) as [[s e] d4]
     end;
     reflexivity).
Qed.

(** X20.  [UpdateLocation] reads nothing of its input but the triple:
    two inputs with the same area name, postal code and country part
    leave the same store and the same error behind, whatever name and
    coordinates they carry, and on success return the same Location. *)
Theorem UpdateLocation_reads_triple_only :
  forall (ID : N) (location1 location2 : common.Location.t) (d : DB),
    part_of location1 = part_of location2 ->
    snd (UpdateLocation ID location1 d) = snd (UpdateLocation ID location2 d)
    /\ snd (fst (UpdateLocation ID location1 d)) = snd (fst (UpdateLocation ID location2 d))
    /\ (snd (fst (UpdateLocation ID location1 d)) = None ->
        fst (fst (UpdateLocation ID location1 d)) = fst (fst (UpdateLocation ID location2 d))).
Proof.
  intros ID location1 location2 d Hp.
  destruct (resolveCountryPart (part_of location1) (advance (SELECT db_locations) d))
    as [pid d2] eqn:Er.
  rewrite (UpdateLocation_eq ID location1 d pid d2 Er).
  rewrite Hp in Er.
  rewrite (UpdateLocation_eq ID location2 d pid d2 Er).
  cbv zeta. destruct (rejects 0 d2); cbn [fst snd].
  - repeat split. discriminate.
  - destruct (first_by_pk _); cbn [fst snd]; repeat split. discriminate.
Qed.

Lemma UpdateLocation_reads_triple_only_witness :
  let d := snd (CreateLocation osloVest emptyDB) in
  let other := common.Location.mk 9 "Renamed" 1%float 2%float "Bergen" "5003" "West" 4 4 in
  UpdateLocation 1 osloVestMoved d = UpdateLocation 1 other d.
Proof.
  intros d other.
  destruct (UpdateLocation_reads_triple_only 1 osloVestMoved other d eq_refl)
    as (H1 & H2 & H3).
  rewrite (surjective_pairing (UpdateLocation 1 osloVestMoved d)).
  rewrite (surjective_pairing (fst (UpdateLocation 1 osloVestMoved d))).
  rewrite H1, H2, (H3 eq_refl).
  rewrite <- (surjective_pairing (fst (UpdateLocation 1 other d))).
  rewrite <- (surjective_pairing (UpdateLocation 1 other d)). reflexivity.
Defined.

Lemma Save_location_rows (value : DbLocation.t) (d : DB) (r : DbLocation.t) :
  In r (locations (snd (gorm.Save value d))) ->
  In r (locations d)
  \/ (DbLocation.CoordinatesReferer r = DbLocation.CoordinatesReferer value
      /\ DbLocation.CountrypartReferer r = DbLocation.CountrypartReferer value).
Proof.
  destruct d as [cps cos ls us crs sc j t].
  unfold gorm.Save, gorm.Create, bind, issue, ret. simpl.
  assert (Happ : forall v, In r (ls ++ [DbLocation.columns v]) ->
                           DbLocation.CoordinatesReferer v = DbLocation.CoordinatesReferer value ->
                           DbLocation.CountrypartReferer v = DbLocation.CountrypartReferer value ->
                           In r ls
                           \/ (DbLocation.CoordinatesReferer r = DbLocation.CoordinatesReferer value
                               /\ DbLocation.CountrypartReferer r
                                  = DbLocation.CountrypartReferer value)).
  { intros v Hin H1 H2. apply in_app_or in Hin. destruct Hin as [Hin|[<-|[]]];
      [left; exact Hin|right]. split; [exact H1|exact H2]. }
  destruct (DbLocation.ID value =? 0); simpl.
  - destruct (hd false sc); simpl; [intros Hin; left; exact Hin|].
    intros Hin. apply (Happ _ Hin); reflexivity.
  - destruct (hd false sc); simpl; [intros Hin; left; exact Hin|].
    destruct (existsb _ ls); simpl.
    + intros Hin. apply in_map_iff in Hin. destruct Hin as (r0 & E & Hr0).
      destruct (_ && _) in E; subst r; [right; split; reflexivity|left; exact Hr0].
    + destruct (hd false (tl sc)); simpl; [intros Hin; left; exact Hin|].
      destruct (hd false (tl (tl sc))); simpl; [intros Hin; left; exact Hin|].
      destruct (existsb _ _); simpl; [intros Hin; left; exact Hin|].
      intros Hin. apply (Happ _ Hin); reflexivity.
Qed.



(** ** Searching, continued *)

Lemma ToLower_idem (s : string) : ToLower (ToLower s) = ToLower s.
Proof.
  induction s as [|c s IH]; [reflexivity|].
  cbn [ToLower]. rewrite lower_ascii_idem, IH. reflexivity.
Qed.

(** X22.  The search ignores the letter case of the search term: two
    terms that differ in case only give the same result on every
    store. *)
Theorem LocationSearchByName_term_case :
  forall (name1 name2 : string) (d : DB),
    ToLower name1 = ToLower name2 ->
    LocationSearchByName name1 d = LocationSearchByName name2 d.
Proof.
  intros name1 name2 d H. unfold LocationSearchByName. rewrite H. reflexivity.
Qed.

Lemma LocationSearchByName_term_case_witness :
  LocationSearchByName "OsLo" threeLocations = LocationSearchByName "oslo" threeLocations.
Proof.
  exact (LocationSearchByName_term_case "OsLo" "oslo" threeLocations eq_refl).
Defined.

(** X23.  The empty search term finds every location that is not
    soft-deleted, in table order, the query being accepted. *)
Theorem LocationSearchByName_empty_term :
  forall d : DB,
    rejects 0 d = false ->
    fst (LocationSearchByName "" d) = (demapLocations (filter live (locations d)), None).
Proof.
  intros d R0. unfold LocationSearchByName, gorm.Find, bind, ret.
  rewrite rejects_0 in R0. cbn [issue fst snd]. rewrite R0. cbn [fst snd].
  cbn [rows Model_DbLocation locations ToLower append].
  rewrite (filter_ext (fun r : DbLocation.t => live r && like "%" (DbLocation.Name r))
                      live).
  - reflexivity.
  - intros l. rewrite like_percent. apply andb_true_r.
Qed.

Lemma LocationSearchByName_empty_term_witness :
  map common.Location.Name
      (fst (fst (LocationSearchByName "" (snd (DeleteLocation 2 threeLocations)))))
  = ["Oslo Vest"; "Bergen"].
Proof.
  rewrite (LocationSearchByName_empty_term (snd (DeleteLocation 2 threeLocations)) eq_refl).
  reflexivity.
Defined.

(** ** The no-duplicate invariant at the level of the operations *)

Lemma resolveCountryPart_keeps_unique (part : DbCountryPart.t) (d : DB) :
  DbCountryPart.ID part = 0 ->
  rejects 0 d = false ->
  keys_nonzero d -> no_duplicate_triples d ->
  keys_nonzero (snd (resolveCountryPart part d))
  /\ no_duplicate_triples (snd (resolveCountryPart part d)).
Proof.
  intros Hid R0 Hnz Hnd.
  destruct (DbCountryPart.isEmpty part) eqn:He.
  { unfold resolveCountryPart. rewrite He. cbn [negb ret snd]. split; assumption. }
  rewrite (resolveCountryPart_eq part d He Hid), R0.
  destruct (first_by_pk (filter (same_triple part) (countryparts d))) as [r|] eqn:Ef.
  - apply first_by_pk_In, filter_In in Ef. destruct Ef as [Hin _].
    assert (Hk : DbCountryPart.ID r <> 0).
    { unfold keys_nonzero in Hnz. rewrite Forall_forall in Hnz. apply Hnz, Hin. }
    apply N.eqb_neq in Hk. rewrite Hk. cbn [snd]. split; assumption.
  - apply first_by_pk_none in Ef. unfold insert_branch.
    destruct (rejects 1 d); cbn [snd]; [split; assumption|].
    split.
    + unfold keys_nonzero.
      change (Forall (fun p => DbCountryPart.ID p <> 0)
                     (countryparts d ++ [new_part part d])).
      apply Forall_app. split; [exact Hnz|].
      constructor; [apply next_key_nonzero|constructor].
    + unfold no_duplicate_triples.
      change (NoDup (map triple_key (countryparts d ++ [new_part part d]))).
      rewrite map_app. apply NoDup_app; [exact Hnd|repeat constructor; simpl; tauto|].
      intros k Hin [Hk|[]]. subst k.
      change (triple_key (new_part part d)) with (triple_key part) in Hin.
      apply key_in_filter in Hin. contradiction.
Qed.



(** X25.  [UpdateLocation] keeps the country parts free of duplicate
    triples and of zero keys, provided the store accepts the look-up of
    the country part (the second statement of the call), whether or not
    the location exists. *)
Theorem UpdateLocation_keeps_triples_unique :
  forall (ID : N) (location : common.Location.t) (d : DB),
    keys_nonzero d -> no_duplicate_triples d ->
    rejects 1 d = false ->
    keys_nonzero (snd (UpdateLocation ID location d))
    /\ no_duplicate_triples (snd (UpdateLocation ID location d)).
Proof.
  intros ID location d Hnz Hnd R1.
  destruct (resolveCountryPart_keeps_unique (part_of location)
              (advance (SELECT db_locations) d) eq_refl) as [H1 H2];
    [rewrite rejects_advance; exact R1|exact Hnz|exact Hnd|].
  destruct (resolveCountryPart (part_of location) (advance (SELECT db_locations) d))
    as [pid d2] eqn:Er.
  rewrite (UpdateLocation_eq ID location d pid d2 Er). cbv zeta. cbn [snd] in H1, H2.
  destruct (rejects 0 d2); cbn [snd]; [split; assumption|].
  destruct (first_by_pk _); cbn [snd]; [|split; assumption].
  match goal with
  | |- context [gorm.Save ?v ?dd] => destruct (Save_location_frame v dd) as (Hcp & _)
  end.
  unfold keys_nonzero, no_duplicate_triples. rewrite Hcp. split; assumption.
Qed.

Lemma UpdateLocation_keeps_triples_unique_witness :
  no_duplicate_triples (snd (UpdateLocation 7 osloVest (storeWith [osloStored] []))).
Proof.
  apply (UpdateLocation_keeps_triples_unique 7 osloVest (storeWith [osloStored] [])).
  - repeat constructor. discriminate.
  - repeat constructor. simpl. intros H. exact H.
  - reflexivity.
Defined.
